(** * Box-plot explorer (01_posbolt2Excel.py): filter chain, outlier
    classification, grouped statistics and series assembly.

    The development embeds the data-processing core of the Streamlit
    application: the cascading filter chain kept in the session state
    ([add_new_filter], [apply_current_filters], [apply_filters_to_data]),
    the quartile fences computed inside [create_boxplot], the traces that
    [create_boxplot] adds to the figure and the group tables of
    [show_statistics].

    Modelling conventions.
    - A pandas column is either a float64/int64 column or an object column
      of text.  The missing value is [NaN] in a numeric column and [None]
      in an object column.
    - Finite numbers are exact rationals; [NaN] is the only special value.
      Rounding, overflow and infinities are outside the model.
    - Python exceptions are values of [exn]; a computation that may raise
      lives in the [result] monad. *)

From Stdlib Require Import QArith Qround Lqa.
From stdpp Require Import base list strings sorting.

Open Scope string_scope.
Open Scope list_scope.

(** ** Exceptions and the result monad *)

Inductive exn :=
| KeyError
| TypeError
| IndexError
| AttributeError
| UnboundLocalError.

Inductive result (A : Type) :=
| Ok (a : A)
| Raise (e : exn).

Arguments Ok {A} a.
Arguments Raise {A} e.

#[global] Instance result_ret : MRet result := @Ok.

#[global] Instance result_bind : MBind result :=
  λ A B f m, match m with Ok a => f a | Raise e => Raise e end.

#[global] Instance result_fmap : FMap result :=
  λ A B f m, match m with Ok a => Ok (f a) | Raise e => Raise e end.

#[global] Instance exn_eq_dec : EqDecision exn.
Proof. solve_decision. Defined.

#[global] Instance result_eq_dec {A} `{EqDecision A} : EqDecision (result A).
Proof. solve_decision. Defined.

(** ** Numbers: rationals and NaN *)

Inductive float :=
| NaN
| Fin (q : Q).

Definition fle (a b : float) : bool :=
  match a, b with
  | Fin x, Fin y => Qle_bool x y
  | _, _ => false
  end.

Definition flt (a b : float) : bool :=
  match a, b with
  | Fin x, Fin y => negb (Qle_bool y x)
  | _, _ => false
  end.

Definition fge (a b : float) : bool := fle b a.
Definition fgt (a b : float) : bool := flt b a.

Definition fadd (a b : float) : float :=
  match a, b with
  | Fin x, Fin y => Fin (x + y)
  | _, _ => NaN
  end.

Definition fsub (a b : float) : float :=
  match a, b with
  | Fin x, Fin y => Fin (x - y)
  | _, _ => NaN
  end.

Definition fmul (a b : float) : float :=
  match a, b with
  | Fin x, Fin y => Fin (x * y)
  | _, _ => NaN
  end.

Definition isnan (a : float) : bool :=
  match a with NaN => true | Fin _ => false end.

(** ** Series and data frames *)

Inductive Series :=
| FloatSeries (xs : list float)
| ObjectSeries (xs : list (option string)).

(** A row stores its numeric cells and its text cells separately, in the
    order of [num_columns] and [obj_columns]. *)
Record Row := mkRow {
  nums : list float;
  objs : list (option string)
}.

Record DataFrame := mkDF {
  num_columns : list string;   (* select_dtypes(include=[np.number]) *)
  obj_columns : list string;   (* select_dtypes(include=['object', 'category']) *)
  rows : list Row
}.

Definition index_of (c : string) (l : list string) : option nat :=
  fst <$> list_find (λ x, x = c) l.

Definition num_cell (k : nat) (r : Row) : float := default NaN (nums r !! k).
Definition obj_cell (k : nat) (r : Row) : option string := mjoin (objs r !! k).

(** [df[column]] *)
Definition getitem (df : DataFrame) (column : string) : result Series :=
  match index_of column (num_columns df) with
  | Some k => Ok (FloatSeries (num_cell k <$> rows df))
  | None =>
      match index_of column (obj_columns df) with
      | Some k => Ok (ObjectSeries (obj_cell k <$> rows df))
      | None => Raise KeyError
      end
  end.

(** [series >= v] and [series <= v].  On an object column a missing cell
    compares false and a text cell cannot be compared with a number. *)
Definition obj_compare (o : option string) : result bool :=
  match o with
  | None => Ok false
  | Some _ => Raise TypeError
  end.

Definition series_ge (s : Series) (v : float) : result (list bool) :=
  match s with
  | FloatSeries xs => Ok ((λ x, fge x v) <$> xs)
  | ObjectSeries xs => mapM obj_compare xs
  end.

Definition series_le (s : Series) (v : float) : result (list bool) :=
  match s with
  | FloatSeries xs => Ok ((λ x, fle x v) <$> xs)
  | ObjectSeries xs => mapM obj_compare xs
  end.

(** [series.isin(values)] for a list of text values *)
Definition obj_isin (values : list string) (o : option string) : bool :=
  match o with
  | Some v => bool_decide (v ∈ values)
  | None => false
  end.

Definition series_isin (s : Series) (values : list string) : list bool :=
  match s with
  | FloatSeries xs => (λ _, false) <$> xs
  | ObjectSeries xs => obj_isin values <$> xs
  end.

(** [m1 & m2] *)
Definition mask_and (m1 m2 : list bool) : list bool := zip_with andb m1 m2.

(** Selection by a boolean mask *)
Fixpoint select {A} (mask : list bool) (l : list A) : list A :=
  match mask, l with
  | b :: mask, x :: l => if b then x :: select mask l else select mask l
  | _, _ => []
  end.

(** [df[mask]] *)
Definition getitem_mask (df : DataFrame) (mask : list bool) : DataFrame :=
  {| num_columns := num_columns df;
     obj_columns := obj_columns df;
     rows := select mask (rows df) |}.

(** [df.iloc[0:0]] *)
Definition iloc_empty (df : DataFrame) : DataFrame :=
  {| num_columns := num_columns df;
     obj_columns := obj_columns df;
     rows := [] |}.

(** [df.empty] *)
Definition empty (df : DataFrame) : bool :=
  match rows df with [] => true | _ => false end.

(** ** The filter chain *)

Inductive FilterInfo :=
| categorical (column : string) (all_values selected_values : list string)
| numeric (column : string) (min_val max_val : float)
    (selected_range : float * float).

Definition filter_column (f : FilterInfo) : string :=
  match f with
  | categorical c _ _ => c
  | numeric c _ _ _ => c
  end.

Record SessionState := mkState {
  graph_y_column : string;
  graph_x_column : string;
  graph_color_column : string;
  graph_show_points : bool;
  graph_show_mean : bool;
  active_filters : list FilterInfo;
  filter_counter : nat
}.

(** Assignment to [st.session_state.active_filters] *)
Definition set_active_filters (st : SessionState) (fs : list FilterInfo)
  : SessionState :=
  {| graph_y_column := graph_y_column st;
     graph_x_column := graph_x_column st;
     graph_color_column := graph_color_column st;
     graph_show_points := graph_show_points st;
     graph_show_mean := graph_show_mean st;
     active_filters := fs;
     filter_counter := filter_counter st |}.

(** Body of the loop shared by [apply_current_filters] and
    [apply_filters_to_data]. *)
Definition filter_step (filtered_df : DataFrame) (filter_info : FilterInfo)
  : result DataFrame :=
  match filter_info with
  | categorical column _ selected_values =>
      match selected_values with
      | _ :: _ =>
          col ← getitem filtered_df column;
          Ok (getitem_mask filtered_df (series_isin col selected_values))
      | [] => Ok (iloc_empty filtered_df)
      end
  | numeric column _ _ selected_range =>
      col ← getitem filtered_df column;
      m1 ← series_ge col selected_range.1;
      col' ← getitem filtered_df column;
      m2 ← series_le col' selected_range.2;
      Ok (getitem_mask filtered_df (mask_and m1 m2))
  end.

Fixpoint apply_filters_to_data (df : DataFrame) (filters_list : list FilterInfo)
  : result DataFrame :=
  match filters_list with
  | [] => Ok df
  | filter_info :: rest =>
      filtered_df ← filter_step df filter_info;
      apply_filters_to_data filtered_df rest
  end.

Definition apply_current_filters (st : SessionState) (df : DataFrame)
  : result DataFrame :=
  (fix loop (filtered_df : DataFrame) (fs : list FilterInfo) :=
     match fs with
     | [] => Ok filtered_df
     | filter_info :: rest =>
         filtered_df' ← filter_step filtered_df filter_info;
         loop filtered_df' rest
     end) df (active_filters st).

(** [series.dropna()] on an object column keeps the text values. *)
Definition dropna_obj (xs : list (option string)) : list string :=
  omap id xs.

(** [series.unique()]: distinct values in order of first appearance *)
Fixpoint unique (l : list string) : list string :=
  match l with
  | [] => []
  | x :: l => x :: filter (λ y, y ≠ x) (unique l)
  end.

(** [sorted(values)] on text: ascending code-point order *)
Definition sorted (l : list string) : list string := merge_sort String.le l.

(** [series.min()] and [series.max()] skip missing values and give NaN
    when nothing is left. *)
Definition nanmin (xs : list float) : float :=
  foldr (λ x acc,
    match x, acc with
    | NaN, _ => acc
    | Fin q, NaN => Fin q
    | Fin q, Fin a => if Qle_bool q a then Fin q else Fin a
    end) NaN xs.

Definition nanmax (xs : list float) : float :=
  foldr (λ x acc,
    match x, acc with
    | NaN, _ => acc
    | Fin q, NaN => Fin q
    | Fin q, Fin a => if Qle_bool a q then Fin q else Fin a
    end) NaN xs.

(** [st.session_state.active_filters.append(filter_info)] *)
Definition append_filter (st : SessionState) (f : FilterInfo) : SessionState :=
  set_active_filters st (active_filters st ++ [f]).

(** The dtype test reads the column of [df], the domain is taken from
    the column of [filtered_df].  Filtering keeps the columns and their
    dtypes, so the two series are of the same kind and the [TypeError]
    branches are not reached.  [selected_values] starts as a copy of
    [all_values]. *)
Definition add_new_filter (df : DataFrame) (column : string) (st : SessionState)
  : result SessionState :=
  filtered_df ← apply_current_filters st df;
  dtype ← getitem df column;
  match dtype with
  | ObjectSeries _ =>
      col ← getitem filtered_df column;
      match col with
      | ObjectSeries xs =>
          let unique_values := sorted (unique (dropna_obj xs)) in
          Ok (append_filter st (categorical column unique_values unique_values))
      | FloatSeries _ => Raise TypeError
      end
  | FloatSeries _ =>
      col ← getitem filtered_df column;
      match col with
      | FloatSeries xs =>
          let min_val := nanmin xs in
          let max_val := nanmax xs in
          Ok (append_filter st (numeric column min_val max_val (min_val, max_val)))
      | ObjectSeries _ => Raise TypeError
      end
  end.

(** [list.pop(i)] for an index produced by [enumerate] *)
Definition list_pop {A} (l : list A) (i : nat) : result (A * list A) :=
  match l !! i with
  | Some x => Ok (x, delete i l)
  | None => Raise IndexError
  end.

(** The handler of the remove button:
    [st.session_state.active_filters.pop(i)] *)
Definition remove_filter (i : nat) (st : SessionState) : result SessionState :=
  p ← list_pop (active_filters st) i;
  Ok (set_active_filters st p.2).

(** ** Quartiles and Tukey fences *)

Definition finite_values (xs : list float) : list Q :=
  omap (λ x, match x with Fin q => Some q | NaN => None end) xs.

Definition Qle_rel (x y : Q) : Prop := Qle_bool x y.

#[global] Instance Qle_rel_dec : RelDecision Qle_rel.
Proof. intros x y. unfold Qle_rel. apply _. Defined.

(** [series.quantile(q)] with pandas' default linear interpolation: the
    non-missing values are sorted, the position [q * (n - 1)] is split
    into its integer part and its fraction, and the result lies between
    the two neighbouring order statistics. *)
Definition quantile (xs : list float) (q : Q) : float :=
  let v := merge_sort Qle_rel (finite_values xs) in
  match v with
  | [] => NaN
  | v0 :: _ =>
      let n := length v in
      let pos := (q * inject_Z (Z.of_nat (n - 1)))%Q in
      let lo := Qfloor pos in
      let frac := (pos - inject_Z lo)%Q in
      let i := Z.to_nat lo in
      let a := nth i v v0 in
      let b := nth (Nat.min (i + 1) (n - 1)) v v0 in
      Fin (a + (b - a) * frac)
  end.

(** [series.mean()] *)
Definition series_mean (xs : list float) : float :=
  match finite_values xs with
  | [] => NaN
  | v => Fin (foldr Qplus 0%Q v / inject_Z (Z.of_nat (length v)))
  end.

Record Fence := mkFence {
  Q1 : float;
  Q3 : float;
  IQR : float;
  lower_bound : float;
  upper_bound : float
}.

(** The fence computation that [create_boxplot] repeats for the whole
    column, for every group and for every (color, group) cell. *)
Definition fence (data : list float) : Fence :=
  let Q1 := quantile data (1 # 4) in
  let Q3 := quantile data (3 # 4) in
  let IQR := fsub Q3 Q1 in
  let lower_bound := fsub Q1 (fmul (Fin (3 # 2)) IQR) in
  let upper_bound := fadd Q3 (fmul (Fin (3 # 2)) IQR) in
  mkFence Q1 Q3 IQR lower_bound upper_bound.

(** [data[(data < lower_bound) | (data > upper_bound)]] *)
Definition outliers (data : list float) : list float :=
  let f := fence data in
  select (zip_with orb ((λ x, flt x (lower_bound f)) <$> data)
                       ((λ x, fgt x (upper_bound f)) <$> data)) data.

(** [data[(data >= lower_bound) & (data <= upper_bound)]] *)
Definition normal_data (data : list float) : list float :=
  let f := fence data in
  select (mask_and ((λ x, fge x (lower_bound f)) <$> data)
                   ((λ x, fle x (upper_bound f)) <$> data)) data.

Definition classify (samples : list float)
  : list float * list float * Fence :=
  (normal_data samples, outliers samples, fence samples).

(** ** The figure *)

Inductive TraceKind := Box | Scatter.

(** A text label: prefix, value and number of decimals of the format. *)
Inductive Label := label (prefix : string) (value : float) (decimals : nat).

Record Trace := mkTrace {
  trace_kind : TraceKind;
  trace_x : list string;
  trace_y : list float;
  trace_name : string;
  trace_color : string;
  trace_text : option Label;
  trace_showlegend : bool;
  trace_legendgroup : option string;
  trace_offsetgroup : option string;
  trace_boxmean : bool
}.

Inductive Rendered :=
| no_valid_data
| plotly_chart (fig : list Trace) (title : string).

(** plotly's qualitative palettes, from which [EXTENDED_COLORS] is
    concatenated: 9 + 8 + 12 + 9 + 8 = 46 entries *)
Definition Set1 : list string :=
  ["rgb(228,26,28)"; "rgb(55,126,184)"; "rgb(77,175,74)"; "rgb(152,78,163)";
   "rgb(255,127,0)"; "rgb(255,255,51)"; "rgb(166,86,40)"; "rgb(247,129,191)";
   "rgb(153,153,153)"].

Definition Set2 : list string :=
  ["rgb(102,194,165)"; "rgb(252,141,98)"; "rgb(141,160,203)";
   "rgb(231,138,195)"; "rgb(166,216,84)"; "rgb(255,217,47)";
   "rgb(229,196,148)"; "rgb(179,179,179)"].

Definition Set3 : list string :=
  ["rgb(141,211,199)"; "rgb(255,255,179)"; "rgb(190,186,218)";
   "rgb(251,128,114)"; "rgb(128,177,211)"; "rgb(253,180,98)";
   "rgb(179,222,105)"; "rgb(252,205,229)"; "rgb(217,217,217)";
   "rgb(188,128,189)"; "rgb(204,235,197)"; "rgb(255,237,111)"].

Definition Pastel1 : list string :=
  ["rgb(251,180,174)"; "rgb(179,205,227)"; "rgb(204,235,197)";
   "rgb(222,203,228)"; "rgb(254,217,166)"; "rgb(255,255,204)";
   "rgb(229,216,189)"; "rgb(253,218,236)"; "rgb(242,242,242)"].

Definition Pastel2 : list string :=
  ["rgb(179,226,205)"; "rgb(253,205,172)"; "rgb(203,213,232)";
   "rgb(244,202,228)"; "rgb(230,245,201)"; "rgb(255,242,174)";
   "rgb(241,226,204)"; "rgb(204,204,204)"].

Definition EXTENDED_COLORS : list string :=
  Set1 ++ Set2 ++ Set3 ++ Pastel1 ++ Pastel2.

(** The "none" choice of the group and color selectors *)
Definition NONE : string := "없음".

(** [df[[c1, ..., cn]]] *)
Definition is_numeric (df : DataFrame) (c : string) : bool :=
  bool_decide (is_Some (index_of c (num_columns df))).

Definition locate (df : DataFrame) (c : string) : result (nat + nat) :=
  match index_of c (num_columns df) with
  | Some k => Ok (inl k)
  | None =>
      match index_of c (obj_columns df) with
      | Some k => Ok (inr k)
      | None => Raise KeyError
      end
  end.

Definition num_indices (locs : list (nat + nat)) : list nat :=
  omap (λ l, match l with inl k => Some k | inr _ => None end) locs.

Definition obj_indices (locs : list (nat + nat)) : list nat :=
  omap (λ l, match l with inr k => Some k | inl _ => None end) locs.

Definition project_row (locs : list (nat + nat)) (r : Row) : Row :=
  {| nums := (λ k, num_cell k r) <$> num_indices locs;
     objs := (λ k, obj_cell k r) <$> obj_indices locs |}.

Definition getitem_list (df : DataFrame) (cols : list string)
  : result DataFrame :=
  locs ← mapM (locate df) cols;
  Ok {| num_columns := filter (λ c, is_numeric df c = true) cols;
        obj_columns := filter (λ c, is_numeric df c = false) cols;
        rows := project_row locs <$> rows df |}.

(** [df.dropna()] *)
Definition row_complete (r : Row) : bool :=
  forallb (λ x, negb (isnan x)) (nums r) && forallb (λ o, bool_decide (is_Some o)) (objs r).

Definition dropna (df : DataFrame) : DataFrame :=
  {| num_columns := num_columns df;
     obj_columns := obj_columns df;
     rows := filter (λ r, row_complete r = true) (rows df) |}.

(** [series == value] for a text value *)
Definition series_eq (s : Series) (value : string) : list bool :=
  match s with
  | FloatSeries xs => (λ _, false) <$> xs
  | ObjectSeries xs => (λ o, bool_decide (o = Some value)) <$> xs
  end.

(** [df[df[column] == value]] *)
Definition where_eq (df : DataFrame) (column value : string) : result DataFrame :=
  col ← getitem df column;
  Ok (getitem_mask df (series_eq col value)).

(** Numeric and text views of a series.  The value column is taken from
    [numeric_columns], the group and color columns from
    [categorical_columns]; another kind of column is a type error. *)
Definition float_values (s : Series) : result (list float) :=
  match s with
  | FloatSeries xs => Ok xs
  | ObjectSeries _ => Raise TypeError
  end.

Definition text_values (s : Series) : result (list string) :=
  match s with
  | ObjectSeries xs => Ok (dropna_obj xs)
  | FloatSeries _ => Raise TypeError
  end.

(** Reading a local variable of the function *)
Definition read_local {A} (v : option A) : result A :=
  match v with
  | Some a => Ok a
  | None => Raise UnboundLocalError
  end.

(** [{group: colors[i] for i, group in enumerate(color_groups)}] *)
Definition make_color_map (colors color_groups : list string)
  : result (list (string * string)) :=
  mapM (λ p : nat * string,
          match colors !! p.1 with
          | Some c => Ok (p.2, c)
          | None => Raise IndexError
          end) (imap pair color_groups).

(** [color_map[group]] *)
Definition color_of (color_map : list (string * string)) (group : string)
  : result string :=
  match list_find (λ p : string * string, p.1 = group) color_map with
  | Some (_, p) => Ok p.2
  | None => Raise KeyError
  end.

(** ** create_boxplot

    The traces are modelled with the fields that identify them (kind,
    positions, values, name, color, text, legend and offset group).  The
    layout of the figure is drawing only; [filter_info] is read for the
    title of the value axis alone and is left out. *)

(** A loop that adds the traces of every iteration to the figure *)
Definition concat_mapM {A B} (f : A → result (list B)) (l : list A)
  : result (list B) :=
  ts ← mapM f l; Ok (concat ts).

Definition GRAY_FILL : string := "rgba(200,200,200,0.3)".

(** The branch without a group column: one box over the whole value
    column, its normal points and outliers, and the mean marker. *)
Definition single_box (plot_df : DataFrame) (y_column : string)
    (show_points show_mean : bool) : result Rendered :=
  data ← getitem plot_df y_column ≫= float_values;
  let outliers := outliers data in
  let normal_data := normal_data data in
  let box := mkTrace Box [] data y_column GRAY_FILL None false None None false in
  let points :=
    if show_points then
      mkTrace Scatter (replicate (length normal_data) y_column) normal_data
        "데이터" "gray" None true None None false
      :: (if bool_decide (0 < length outliers) then
            [mkTrace Scatter (replicate (length outliers) y_column) outliers
               "이상치" "yellow" None true None None false]
          else [])
    else [] in
  mean ←
    (if show_mean then
       (* [group_data] and [group] are assigned only in the grouped
          branches of the function; on this path they are unbound. *)
       group_data ← read_local (None : option (list float));
       let mean_val := series_mean group_data in
       group ← read_local (None : option string);
       Ok [mkTrace Scatter [group] [mean_val] "평균" "black"
             (Some (label EmptyString mean_val 2)) false (Some "mean") None false]
     else Ok []);
  Ok (plotly_chart (box :: points ++ mean) (y_column +:+ " 분포")).

(** The inner loop of the colored branch: the points of one
    (color, group) cell. *)
Definition cell_points (color_data : DataFrame) (x_column y_column : string)
    (color_group color group : string) : result (list Trace) :=
  cell ← where_eq color_data x_column group;
  group_color_data ← getitem cell y_column ≫= float_values;
  if bool_decide (length group_color_data = 0) then Ok []
  else
    let outliers := outliers group_color_data in
    let normal_data := normal_data group_color_data in
    Ok ((if bool_decide (0 < length normal_data) then
           [mkTrace Scatter (replicate (length normal_data) group) normal_data
              (color_group +:+ " 데이터") color None false
              (Some (color_group +:+ "_normal")) (Some color_group) false]
         else [])
        ++
        (if bool_decide (0 < length outliers) then
           [mkTrace Scatter (replicate (length outliers) group) outliers
              (color_group +:+ " 이상치") "yellow" None false
              (Some (color_group +:+ "_outliers")) (Some color_group) false]
         else [])).

(** One iteration of the loop over [color_groups]. *)
Definition color_traces (plot_df : DataFrame) (x_column y_column color_column : string)
    (show_points show_mean : bool) (color_map : list (string * string))
    (groups : list string) (color_group : string) : result (list Trace) :=
  color_data ← where_eq plot_df color_column color_group;
  if bool_decide (length (rows color_data) = 0) then Ok []
  else
    xs ← getitem color_data x_column ≫= text_values;
    ys ← getitem color_data y_column ≫= float_values;
    color ← color_of color_map color_group;
    let box := mkTrace Box xs ys color_group color None true
                 (Some color_group) (Some color_group) show_mean in
    points ←
      (if show_points then
         concat_mapM (cell_points color_data x_column y_column color_group color) groups
       else Ok []);
    Ok (box :: points).

(** [sorted(plot_df[column].unique())] *)
Definition sorted_unique (plot_df : DataFrame) (column : string)
  : result (list string) :=
  values ← getitem plot_df column ≫= text_values;
  Ok (sorted (unique values)).

(** The branch with a group column and a color column *)
Definition colored_boxes (plot_df : DataFrame) (x_column y_column color_column : string)
    (show_points show_mean : bool) : result Rendered :=
  (* [plot_df[color_column]] is a two-column frame, without [unique],
     when the group and the color selector name the same column *)
  _ ← (if bool_decide (x_column = color_column) then Raise AttributeError else Ok ());
  color_groups ← sorted_unique plot_df color_column;
  let colors := take (length color_groups) EXTENDED_COLORS in
  color_map ← make_color_map colors color_groups;
  groups ← sorted_unique plot_df x_column;
  traces ← mapM (color_traces plot_df x_column y_column color_column
                   show_points show_mean color_map groups) color_groups;
  Ok (plotly_chart (concat traces)
        (y_column +:+ " by " +:+ x_column +:+ " (색상: " +:+ color_column +:+ ")")).

(** [plot_df[plot_df[x_column] == group][y_column]] *)
Definition group_values (plot_df : DataFrame) (x_column y_column group : string)
  : result (list float) :=
  sub ← where_eq plot_df x_column group;
  getitem sub y_column ≫= float_values.

(** The bodies of the two loops over [enumerate(groups)]: the points
    and the mean marker of one group *)
Definition group_points (plot_df : DataFrame) (x_column y_column : string)
    (p : nat * string) : result (list Trace) :=
  let '(i, group) := p in
  group_data ← group_values plot_df x_column y_column group;
  if bool_decide (length group_data = 0) then Ok []
  else
    let outliers := outliers group_data in
    let normal_data := normal_data group_data in
    Ok ((if bool_decide (0 < length normal_data) then
           [mkTrace Scatter (replicate (length normal_data) group) normal_data
              (if bool_decide (i = 0) then "데이터" else EmptyString) "gray" None
              (bool_decide (i = 0)) (Some "normal") None false]
         else [])
        ++
        (if bool_decide (0 < length outliers) then
           [mkTrace Scatter (replicate (length outliers) group) outliers
              (if bool_decide (i = 0) then "이상치" else EmptyString) "yellow" None
              (bool_decide (i = 0)) (Some "outliers") None false]
         else [])).

Definition group_mean (plot_df : DataFrame) (x_column y_column : string)
    (p : nat * string) : result (list Trace) :=
  let '(i, group) := p in
  group_data ← group_values plot_df x_column y_column group;
  if bool_decide (length group_data = 0) then Ok []
  else
    let mean_val := series_mean group_data in
    Ok [mkTrace Scatter [group] [mean_val]
          (if bool_decide (i = 0) then "평균" else EmptyString) "White"
          (Some (label "평균: " mean_val 1))
          (bool_decide (i = 0)) (Some "mean") None false].

(** The branch with a group column and without a color column *)
Definition grouped_boxes (plot_df : DataFrame) (x_column y_column : string)
    (show_points show_mean : bool) : result Rendered :=
  groups ← sorted_unique plot_df x_column;
  xs ← getitem plot_df x_column ≫= text_values;
  ys ← getitem plot_df y_column ≫= float_values;
  let box := mkTrace Box xs ys "박스플롯" GRAY_FILL None false None None false in
  points ←
    (if show_points then
       concat_mapM (group_points plot_df x_column y_column) (imap pair groups)
     else Ok []);
  means ←
    (if show_mean then
       concat_mapM (group_mean plot_df x_column y_column) (imap pair groups)
     else Ok []);
  Ok (plotly_chart (box :: points ++ means) (y_column +:+ " by " +:+ x_column)).

(** The frame that is plotted: the selected columns without the rows
    that miss a value in one of them. *)
Definition plot_frame (df : DataFrame) (y_column x_column color_column : string)
  : result DataFrame :=
  if bool_decide (x_column ≠ NONE ∧ color_column ≠ NONE) then
    dropna <$> getitem_list df [y_column; x_column; color_column]
  else if bool_decide (x_column ≠ NONE) then
    dropna <$> getitem_list df [y_column; x_column]
  else
    dropna <$> getitem_list df [y_column].

Definition create_boxplot (df : DataFrame) (y_column x_column color_column : string)
    (show_points show_mean : bool) : result Rendered :=
  plot_df ← plot_frame df y_column x_column color_column;
  if empty plot_df then Ok no_valid_data
  else if bool_decide (x_column = NONE) then
    single_box plot_df y_column show_points show_mean
  else if bool_decide (color_column ≠ NONE) then
    colored_boxes plot_df x_column y_column color_column show_points show_mean
  else
    grouped_boxes plot_df x_column y_column show_points show_mean.

(** ** show_statistics *)

(** One row of [describe()].  The standard deviation needs a square
    root and is not represented. *)
Record Describe := mkDescribe {
  count : nat;
  mean : float;
  min : float;
  q25 : float;
  q50 : float;
  q75 : float;
  max : float
}.

(** [series.describe()] *)
Definition describe (xs : list float) : Describe :=
  {| count := length (finite_values xs);
     mean := series_mean xs;
     min := nanmin xs;
     q25 := quantile xs (1 # 4);
     q50 := quantile xs (1 # 2);
     q75 := quantile xs (3 # 4);
     max := nanmax xs |}.

Inductive Statistics :=
| overall_stats (stats : Describe)
| group_stats (grouped_stats : list (string * Describe))
    (group_counts : list (string * nat)).

(** [df.groupby(x_column)]: pandas sorts the group keys and leaves out
    the missing key. *)
Definition groupby_keys (df : DataFrame) (x_column : string)
  : result (list string) :=
  values ← getitem df x_column ≫= text_values;
  Ok (sorted (unique values)).

(** [df[x_column].value_counts().sort_index()] *)
Definition value_counts_sorted (df : DataFrame) (x_column : string)
  : result (list (string * nat)) :=
  values ← getitem df x_column ≫= text_values;
  Ok ((λ k, (k, length (filter (λ v, v = k) values))) <$> sorted (unique values)).

Definition show_statistics (df : DataFrame) (y_column x_column : string)
  : result Statistics :=
  if bool_decide (x_column = NONE) then
    ys ← getitem df y_column ≫= float_values;
    Ok (overall_stats (describe ys))
  else
    keys ← groupby_keys df x_column;
    grouped_stats ←
      mapM (λ k, ys ← group_values df x_column y_column k;
                 Ok (k, describe ys)) keys;
    group_counts ← value_counts_sorted df x_column;
    Ok (group_stats grouped_stats group_counts).

(** ** process_graph_settings *)

Inductive Page :=
| no_numeric_data
| waiting_for_apply
| no_matching_data
| page (chart : Rendered) (statistics : Statistics).

(** What the page shows for the frame [df]; [apply_button] tells whether
    the apply button was pressed in this run. *)
Definition process_graph_settings (df : DataFrame) (st : SessionState)
    (apply_button : bool) : result Page :=
  match num_columns df with
  | [] => Ok no_numeric_data
  | _ :: _ =>
      if apply_button then
        filtered_df ← apply_filters_to_data df (active_filters st);
        if negb (empty filtered_df) then
          chart ← create_boxplot filtered_df (graph_y_column st)
                    (graph_x_column st) (graph_color_column st)
                    (graph_show_points st) (graph_show_mean st);
          statistics ← show_statistics filtered_df (graph_y_column st)
                         (graph_x_column st);
          Ok (page chart statistics)
        else Ok no_matching_data
      else Ok waiting_for_apply
  end.




(** ** Row-level view of the filters *)

Definition with_rows (df : DataFrame) (rs : list Row) : DataFrame :=
  {| num_columns := num_columns df; obj_columns := obj_columns df; rows := rs |}.

(** Filtering by a test that may raise: the first error wins, as when
    the mask of the whole column is computed before the selection. *)
Fixpoint filterM {A} (p : A → result bool) (l : list A) : result (list A) :=
  match l with
  | [] => Ok []
  | x :: l =>
      p x ≫= λ b : bool,
      l' ← filterM p l;
      Ok (if b then x :: l' else l')
  end.

(** The test that one filter applies to a row of a frame with the
    columns of [df]. *)
Definition row_test (df : DataFrame) (f : FilterInfo)
  : result (Row → result bool) :=
  match f with
  | categorical column _ [] => Ok (λ _ : Row, Ok false)
  | categorical column _ selected_values =>
      loc ← locate df column;
      match loc with
      | inl _ => Ok (λ _ : Row, Ok false)
      | inr k => Ok (λ r : Row, Ok (obj_isin selected_values (obj_cell k r)))
      end
  | numeric column _ _ selected_range =>
      loc ← locate df column;
      match loc with
      | inl k => Ok (λ r : Row, Ok (fge (num_cell k r) selected_range.1
                              && fle (num_cell k r) selected_range.2))
      | inr k => Ok (λ r : Row, obj_compare (obj_cell k r))
      end
  end.

(** Two frames over the same columns, the rows of the first among the
    rows of the second *)
Definition sub_frame (d' d : DataFrame) : Prop :=
  num_columns d' = num_columns d ∧ obj_columns d' = obj_columns d ∧
  rows d' ⊆ rows d.

(** ** Specification-side notions *)

(** Equality of numbers; NaN is equal to nothing. *)
Definition feq (a b : float) : bool :=
  match a, b with
  | Fin x, Fin y => Qeq_bool x y
  | _, _ => false
  end.

(** [lo] is the least non-missing value of [xs], NaN when there is none. *)
Definition is_min (lo : float) (xs : list float) : Prop :=
  match lo with
  | NaN => finite_values xs = []
  | Fin q => Fin q ∈ xs ∧ ∀ q', Fin q' ∈ xs → (q <= q')%Q
  end.

Definition is_max (hi : float) (xs : list float) : Prop :=
  match hi with
  | NaN => finite_values xs = []
  | Fin q => Fin q ∈ xs ∧ ∀ q', Fin q' ∈ xs → (q' <= q)%Q
  end.


(** The domain fields of a filter: [all_values], or [min_val] and
    [max_val]. *)
Definition domain (f : FilterInfo) : list string + float * float :=
  match f with
  | categorical _ all_values _ => inl all_values
  | numeric _ min_val max_val _ => inr (min_val, max_val)
  end.

(** [series.notna()] and [df[df[column].notna()]] *)
Definition series_notna (s : Series) : list bool :=
  match s with
  | FloatSeries xs => (λ x, negb (isnan x)) <$> xs
  | ObjectSeries xs => (λ o, bool_decide (is_Some o)) <$> xs
  end.

Definition notna_rows (df : DataFrame) (column : string) : result DataFrame :=
  col ← getitem df column;
  Ok (getitem_mask df (series_notna col)).

(** ** Row-level semantics of a chain *)

(** Whether the filter keeps the row: its test answers true. *)
Definition passes (df : DataFrame) (r : Row) (f : FilterInfo) : bool :=
  match row_test df f with
  | Ok t => bool_decide (t r = Ok true)
  | Raise _ => false
  end.

(** The frame with the columns of [df] and the single row [r] *)
Definition one_row (df : DataFrame) (r : Row) : DataFrame := with_rows df [r].

(** ** display_data_info

    The two metrics: the number of rows of the data, the number of rows
    after the filters, and the difference shown below the second one. *)
Record DataInfo := mkDataInfo {
  total_count : nat;
  filtered_count : nat;
  delta : Z
}.

Definition display_data_info (original_df filtered_df : DataFrame) : DataInfo :=
  {| total_count := length (rows original_df);
     filtered_count := length (rows filtered_df);
     delta := (Z.of_nat (length (rows filtered_df))
               - Z.of_nat (length (rows original_df)))%Z |}.

(** ** The session state and the sidebar

    The widgets are inputs of a run: a select box returns one of its
    options, a check box its state, a button whether it was pressed in
    this run.  [st.rerun()] ends the run; a handler that calls it
    returns [Rerun] with the session state it has written, otherwise it
    returns [Continue]. *)

(** [st.session_state] at the start of a run: every key may be absent. *)
Record StoredState := mkStored {
  graph_y_column_key : option string;
  graph_x_column_key : option string;
  graph_color_column_key : option string;
  graph_show_points_key : option bool;
  graph_show_mean_key : option bool;
  active_filters_key : option (list FilterInfo);
  filter_counter_key : option nat
}.

(** The stored form of an initialised state: every key is present. *)
Definition stored (st : SessionState) : StoredState :=
  {| graph_y_column_key := Some (graph_y_column st);
     graph_x_column_key := Some (graph_x_column st);
     graph_color_column_key := Some (graph_color_column st);
     graph_show_points_key := Some (graph_show_points st);
     graph_show_mean_key := Some (graph_show_mean st);
     active_filters_key := Some (active_filters st);
     filter_counter_key := Some (filter_counter st) |}.

(** [numeric_columns[0]] is evaluated only when the key is absent. *)
Definition initialize_session_state (numeric_columns categorical_columns : list string)
    (s : StoredState) : result SessionState :=
  y ← match graph_y_column_key s with
      | Some y => Ok y
      | None =>
          match numeric_columns with
          | y :: _ => Ok y
          | [] => Raise IndexError
          end
      end;
  Ok {| graph_y_column := y;
        graph_x_column := default NONE (graph_x_column_key s);
        graph_color_column := default NONE (graph_color_column_key s);
        graph_show_points := default true (graph_show_points_key s);
        graph_show_mean := default true (graph_show_mean_key s);
        active_filters := default [] (active_filters_key s);
        filter_counter := default 0 (filter_counter_key s) |}.

Definition set_graph_y_column (st : SessionState) (v : string) : SessionState :=
  {| graph_y_column := v;
     graph_x_column := graph_x_column st;
     graph_color_column := graph_color_column st;
     graph_show_points := graph_show_points st;
     graph_show_mean := graph_show_mean st;
     active_filters := active_filters st;
     filter_counter := filter_counter st |}.

Definition set_graph_x_column (st : SessionState) (v : string) : SessionState :=
  {| graph_y_column := graph_y_column st;
     graph_x_column := v;
     graph_color_column := graph_color_column st;
     graph_show_points := graph_show_points st;
     graph_show_mean := graph_show_mean st;
     active_filters := active_filters st;
     filter_counter := filter_counter st |}.

Definition set_graph_color_column (st : SessionState) (v : string) : SessionState :=
  {| graph_y_column := graph_y_column st;
     graph_x_column := graph_x_column st;
     graph_color_column := v;
     graph_show_points := graph_show_points st;
     graph_show_mean := graph_show_mean st;
     active_filters := active_filters st;
     filter_counter := filter_counter st |}.

Definition set_graph_show_points (st : SessionState) (v : bool) : SessionState :=
  {| graph_y_column := graph_y_column st;
     graph_x_column := graph_x_column st;
     graph_color_column := graph_color_column st;
     graph_show_points := v;
     graph_show_mean := graph_show_mean st;
     active_filters := active_filters st;
     filter_counter := filter_counter st |}.

Definition set_graph_show_mean (st : SessionState) (v : bool) : SessionState :=
  {| graph_y_column := graph_y_column st;
     graph_x_column := graph_x_column st;
     graph_color_column := graph_color_column st;
     graph_show_points := graph_show_points st;
     graph_show_mean := v;
     active_filters := active_filters st;
     filter_counter := filter_counter st |}.

Definition set_filter_counter (st : SessionState) (v : nat) : SessionState :=
  {| graph_y_column := graph_y_column st;
     graph_x_column := graph_x_column st;
     graph_color_column := graph_color_column st;
     graph_show_points := graph_show_points st;
     graph_show_mean := graph_show_mean st;
     active_filters := active_filters st;
     filter_counter := v |}.

(** [options.index(value) if value in options else 0]: the option that
    a select box shows before the user has chosen one. *)
Definition current_index (options : list string) (value : string) : nat :=
  if bool_decide (value ∈ options) then default 0 (index_of value options) else 0.

(** The values of the five widgets of [setup_graph_controls], named by
    their keys *)
Record GraphWidgets := mkGraphWidgets {
  y_column_selector : string;
  x_column_selector : string;
  color_column_selector : string;
  show_points_selector : bool;
  show_mean_selector : bool
}.

(** The select box of the group column is drawn only when the frame has
    a text column. *)
Definition setup_graph_controls (numeric_columns categorical_columns : list string)
    (w : GraphWidgets) (st : SessionState) : SessionState :=
  let new_y := y_column_selector w in
  let st := if bool_decide (new_y ≠ graph_y_column st)
            then set_graph_y_column st new_y else st in
  let st := match categorical_columns with
            | _ :: _ =>
                let new_x := x_column_selector w in
                if bool_decide (new_x ≠ graph_x_column st)
                then set_graph_x_column st new_x else st
            | [] => st
            end in
  let new_color := color_column_selector w in
  let st := if bool_decide (new_color ≠ graph_color_column st)
            then set_graph_color_column st new_color else st in
  let new_points := show_points_selector w in
  let st := if bool_decide (new_points ≠ graph_show_points st)
            then set_graph_show_points st new_points else st in
  let new_mean := show_mean_selector w in
  if bool_decide (new_mean ≠ graph_show_mean st)
  then set_graph_show_mean st new_mean else st.

Inductive Flow :=
| Continue (st : SessionState)
| Rerun (st : SessionState).

Definition flow_state (fl : Flow) : SessionState :=
  match fl with
  | Continue st => st
  | Rerun st => st
  end.

(** The first choice of the select box for a new filter *)
Definition NOT_SELECTED : string := "선택안함".

Definition applied_columns (st : SessionState) : list string :=
  filter_column <$> active_filters st.

(** The columns that can still get a filter.  The frame keeps its
    numeric and its text columns apart, so they are listed kind by
    kind; a numeric column is taken to be [int64] or [float64]. *)
Definition available_columns (df : DataFrame) (st : SessionState) : list string :=
  filter (λ col, col ∉ applied_columns st) (num_columns df ++ obj_columns df).

(** The widgets of [setup_data_filters_with_button]: the remove button
    of every filter, the select box and the add button *)
Record FilterWidgets := mkFilterWidgets {
  remove_filter_button : nat → bool;
  new_filter_column : string;
  add_filter_button : bool
}.

Definition setup_data_filters_with_button (df : DataFrame) (w : FilterWidgets)
    (st : SessionState) : result Flow :=
  match list_find (λ i, remove_filter_button w i = true)
          (seq 0 (length (active_filters st))) with
  | Some (_, i) => st' ← remove_filter i st; Ok (Rerun st')
  | None =>
      match available_columns df st with
      | [] => Ok (Continue st)
      | _ :: _ =>
          if bool_decide (new_filter_column w ≠ NOT_SELECTED) then
            if add_filter_button w then
              st' ← add_new_filter df (new_filter_column w) st;
              Ok (Rerun (set_filter_counter st' (filter_counter st' + 1)))
            else Ok (Continue st)
          else Ok (Continue st)
      end
  end.

(** [selected_values.remove(value)]: the first occurrence goes *)
Fixpoint list_remove (value : string) (l : list string) : list string :=
  match l with
  | [] => []
  | x :: l => if bool_decide (x = value) then l else x :: list_remove value l
  end.

(** One step of the loop over the check boxes of a categorical filter *)
Definition check_value (new_state : bool) (selected_values : list string)
    (value : string) : list string :=
  if new_state && bool_decide (value ∉ selected_values) then
    selected_values ++ [value]
  else if negb new_state && bool_decide (value ∈ selected_values) then
    list_remove value selected_values
  else selected_values.

Definition check_values (checkbox : string → bool)
    (unique_values selected_values : list string) : list string :=
  foldl (λ selected value, check_value (checkbox value) selected value)
    selected_values unique_values.

(** The widgets of [setup_filter_controls], by the index of the filter *)
Record ControlWidgets := mkControlWidgets {
  select_all : nat → bool;
  deselect_all : nat → bool;
  filter_check : nat → string → bool;
  filter_range_slider : nat → float * float
}.

(** The controls of the filter at index [i]: the new filter, and
    whether the run ends here. *)
Definition filter_control (w : ControlWidgets) (i : nat) (filter_info : FilterInfo)
  : FilterInfo * bool :=
  match filter_info with
  | categorical column unique_values selected_values =>
      if select_all w i then
        (categorical column unique_values unique_values, true)
      else if deselect_all w i then
        (categorical column unique_values [], true)
      else
        (categorical column unique_values
           (check_values (filter_check w i) unique_values selected_values), false)
  | numeric column min_val max_val current_range =>
      if negb (feq min_val max_val) then
        (numeric column min_val max_val (filter_range_slider w i), false)
      else (filter_info, false)
  end.

(** The loop over [enumerate(active_filters)], from index [i] on *)
Fixpoint filter_controls (w : ControlWidgets) (i : nat) (fs : list FilterInfo)
  : list FilterInfo * bool :=
  match fs with
  | [] => ([], false)
  | filter_info :: rest =>
      let '(f, rerun) := filter_control w i filter_info in
      if rerun then (f :: rest, true)
      else let '(rest', rerun') := filter_controls w (S i) rest in
           (f :: rest', rerun')
  end.

Definition setup_filter_controls (w : ControlWidgets) (st : SessionState) : Flow :=
  match active_filters st with
  | [] => Continue st
  | _ :: _ =>
      let '(fs, rerun) := filter_controls w 0 (active_filters st) in
      if rerun then Rerun (set_active_filters st fs)
      else Continue (set_active_filters st fs)
  end.

(** ** Invariants of the chain

    What the handlers keep true of the chain for the frame [df]: no
    column carries two filters, every filter is on a column of the
    frame, and the selection of a categorical filter is a duplicate-free
    part of its domain. *)
Definition filter_ok (f : FilterInfo) : Prop :=
  match f with
  | categorical _ all_values selected_values =>
      NoDup all_values ∧ NoDup selected_values ∧ selected_values ⊆ all_values
  | numeric _ _ _ _ => True
  end.

Definition chain_ok (df : DataFrame) (st : SessionState) : Prop :=
  NoDup (applied_columns st) ∧
  applied_columns st ⊆ num_columns df ++ obj_columns df ∧
  Forall filter_ok (active_filters st).

(** ** What a figure shows *)

#[global] Instance TraceKind_eq_dec : EqDecision TraceKind.
Proof. solve_decision. Defined.


(** The columns that [create_boxplot] selects, and whether a row has a
    value in a column *)
Definition selected_columns (y_column x_column color_column : string) : list string :=
  if bool_decide (x_column ≠ NONE ∧ color_column ≠ NONE) then
    [y_column; x_column; color_column]
  else if bool_decide (x_column ≠ NONE) then [y_column; x_column]
  else [y_column].

Definition has_value (df : DataFrame) (r : Row) (c : string) : bool :=
  match locate df c with
  | Ok (inl k) => negb (isnan (num_cell k r))
  | Ok (inr k) => bool_decide (is_Some (obj_cell k r))
  | Raise _ => false
  end.

(** ** get_current_settings *)



(** ** The title of the value axis

    [create_boxplot] adds one text for every filter to the title of the
    value axis.  The texts are kept apart by their form; a number is
    formatted with one decimal. *)
Inductive FilterText :=
| all_selected (column : string)
| selected_list (column : string) (selected_values : list string)
| selected_number (column : string) (selected_count : nat)
| selected_between (column : string) (lo hi : Label).

Definition filter_text (f_info : FilterInfo) : FilterText :=
  match f_info with
  | categorical column all_values selected_values =>
      let selected_count := length selected_values in
      let total_count := length all_values in
      if bool_decide (selected_count = total_count) then all_selected column
      else if bool_decide (selected_count ≤ 2)%nat then
        selected_list column selected_values
      else selected_number column selected_count
  | numeric column _ _ range_val =>
      selected_between column (label EmptyString range_val.1 1)
        (label EmptyString range_val.2 1)
  end.

Definition y_axis_title (y_column : string) (filter_info : list FilterInfo)
  : string * list FilterText :=
  (y_column, filter_text <$> filter_info).

(** ** Sample data for the examples *)

Definition n (z : Z) : float := Fin (inject_Z z).

(** Scenario A of the test plan: rows (g, v) = (X, 1), (X, 2), (Y, 100) *)
Definition scenario_A : DataFrame :=
  {| num_columns := ["v"]; obj_columns := ["g"];
     rows := [mkRow [n 1] [Some "X"]; mkRow [n 2] [Some "X"];
              mkRow [n 100] [Some "Y"]] |}.

Definition state0 : SessionState :=
  {| graph_y_column := "v"; graph_x_column := NONE; graph_color_column := NONE;
     graph_show_points := true; graph_show_mean := true;
     active_filters := []; filter_counter := 0 |}.

(** Scenario B: the filter on [g] with only [Y] selected *)
Definition filter_Y : FilterInfo := categorical "g" ["X"; "Y"] ["Y"].

Definition state_Y : SessionState :=
  set_active_filters state0 [filter_Y].

(** Scenario E: a filter on [g] added first, a filter on [v] added while
    it was active *)
Definition state_E : SessionState :=
  set_active_filters state0
    [filter_Y; numeric "v" (n 100) (n 100) (n 100, n 100)].

(** A frame whose numeric column [w] is missing in the rows of group Y *)
Definition frame_w : DataFrame :=
  {| num_columns := ["v"; "w"]; obj_columns := ["g"];
     rows := [mkRow [n 1; n 7] [Some "X"]; mkRow [n 2; NaN] [Some "Y"]] |}.

(** A frame with a missing value in the numeric column [v] *)
Definition frame_missing : DataFrame :=
  {| num_columns := ["v"]; obj_columns := ["g"];
     rows := [mkRow [n 1] [Some "X"]; mkRow [NaN] [Some "X"];
              mkRow [n 3] [Some "Y"]] |}.

(** A frame with [k] rows, all in group G, each with a color value of
    its own and the value 10 *)
Definition color_name (i : nat) : string :=
  String (Ascii.ascii_of_nat (65 + i)) EmptyString.

Definition many_colors (k : nat) : DataFrame :=
  {| num_columns := ["v"]; obj_columns := ["g"; "c"];
     rows := (λ i, mkRow [n 10] [Some "G"; Some (color_name i)]) <$> seq 0 k |}.


(** The statistics of Scenario A, grouped by [g] *)
Definition scenario_A_stats : Statistics :=
  group_stats [("X", describe [n 1; n 2]); ("Y", describe [n 100])]
              [("X", 2); ("Y", 1)].


(** A new session: no key is stored. *)
Definition new_session : StoredState :=
  {| graph_y_column_key := None; graph_x_column_key := None;
     graph_color_column_key := None; graph_show_points_key := None;
     graph_show_mean_key := None; active_filters_key := None;
     filter_counter_key := None |}.

(** A frame without a text column, and a state that still holds the
    group column of an earlier frame *)
Definition frame_numbers : DataFrame :=
  {| num_columns := ["v"]; obj_columns := [];
     rows := [mkRow [n 1] []; mkRow [n 2] []] |}.

Definition state_g : SessionState :=
  {| graph_y_column := "v"; graph_x_column := "g"; graph_color_column := NONE;
     graph_show_points := true; graph_show_mean := false;
     active_filters := []; filter_counter := 0 |}.

Definition widgets_v : GraphWidgets :=
  {| y_column_selector := "v"; x_column_selector := NONE;
     color_column_selector := NONE;
     show_points_selector := true; show_mean_selector := false |}.

(** The add button pressed with the column [v] chosen *)
Definition add_v : FilterWidgets :=
  {| remove_filter_button := λ _, false;
     new_filter_column := "v";
     add_filter_button := true |}.

(** No button pressed, the box of [X] checked and the others not, and a
    slider at (0, 1) *)
Definition controls_X : ControlWidgets :=
  {| select_all := λ _, false;
     deselect_all := λ _, false;
     filter_check := λ _ v, bool_decide (v = "X");
     filter_range_slider := λ _, (n 0, n 1) |}.


(** The traces of a rendered figure *)
Definition figure_of (r : result Rendered) : list Trace :=
  match r with
  | Ok (plotly_chart fig _) => fig
  | _ => []
  end.


Definition scenario_A_means : list Trace :=
  figure_of (create_boxplot scenario_A "v" "g" NONE false true).

(** Two colors in one group: the plotted frame and its figure *)
Definition two_colors_plot_df : DataFrame :=
  match plot_frame (many_colors 2) "v" "g" "c" with
  | Ok plot_df => plot_df
  | Raise _ => many_colors 0
  end.

Definition two_colors_fig : list Trace :=
  figure_of (colored_boxes two_colors_plot_df "g" "v" "c" true false).

(** * Properties *)

(** ** The result monad *)

Lemma bind_Ok {A B} (m : result A) (f : A → result B) (b : B) :
  m ≫= f = Ok b ↔ ∃ a, m = Ok a ∧ f a = Ok b.
Proof.
  destruct m as [a|e]; simpl; split.
  - intros H. by exists a.
  - by intros (a' & [= <-] & H).
  - intros [=].
  - by intros (a' & [=] & _).
Qed.

Lemma fmap_Ok {A B} (m : result A) (f : A → B) (b : B) :
  f <$> m = Ok b ↔ ∃ a, m = Ok a ∧ b = f a.
Proof.
  destruct m as [a|e]; simpl; split.
  - intros [= <-]. by exists a.
  - by intros (a' & [= <-] & ->).
  - intros [=].
  - by intros (a' & [=] & _).
Qed.

Ltac inv_result :=
  repeat match goal with
  | H : _ ≫= _ = Ok _ |- _ =>
      let a := fresh "a" in
      let Ha := fresh "Ha" in
      apply bind_Ok in H as (a & Ha & H)
  | H : _ <$> _ = Ok _ |- _ =>
      let a := fresh "a" in
      let Ha := fresh "Ha" in
      apply fmap_Ok in H as (a & Ha & H)
  | H : Ok _ = Ok _ |- _ => injection H as H
  | H : Raise _ = Ok _ |- _ => discriminate H
  | H : Ok _ = Raise _ |- _ => discriminate H
  end.

(** ** Masks and selections *)

Lemma select_fmap {A} (p : A → bool) (l : list A) :
  select (p <$> l) l = filter (λ x, p x = true) l.
Proof.
  induction l as [|x l IH]; [done|]. csimpl. rewrite IH.
  rewrite filter_cons. destruct (p x); by case_decide.
Qed.

Lemma mask_and_fmap {A} (p q : A → bool) (l : list A) :
  mask_and (p <$> l) (q <$> l) = (λ x, p x && q x) <$> l.
Proof. unfold mask_and. induction l; csimpl; by f_equal. Qed.

Lemma mask_or_fmap {A} (p q : A → bool) (l : list A) :
  zip_with orb (p <$> l) (q <$> l) = (λ x, p x || q x) <$> l.
Proof. induction l; csimpl; by f_equal. Qed.

Lemma select_all_false {A B} (l : list A) (rs : list B) :
  select ((λ _, false) <$> l) rs = [].
Proof.
  revert rs. induction l as [|x l IH]; intros [|r rs]; csimpl; auto.
Qed.

Lemma filterM_pure {A} (p : A → bool) (l : list A) :
  filterM (λ x, Ok (p x)) l = Ok (filter (λ x, p x = true) l).
Proof.
  induction l as [|x l IH]; [done|]. csimpl. rewrite IH. csimpl.
  rewrite filter_cons. destruct (p x); by case_decide.
Qed.

Lemma filterM_false {A} (l : list A) :
  filterM (λ _ : A, Ok false) l = Ok [].
Proof. induction l as [|x l IH]; [done|]. csimpl. by rewrite IH. Qed.

(** A test passes a row when it answers true without raising. *)
Lemma filterM_Ok {A} (p : A → result bool) (l l' : list A) :
  filterM p l = Ok l' ↔
  Forall (λ x, ∃ b, p x = Ok b) l ∧ l' = filter (λ x, p x = Ok true) l.
Proof.
  revert l'. induction l as [|x l IH]; intros l'; csimpl.
  - split; [intros [= <-]; by split|by intros [_ ->]].
  - rewrite filter_cons. split.
    + intros H. inv_result. apply IH in Ha0 as [Hall ->].
      split; [constructor; eauto|].
      rewrite Ha. destruct a; subst; case_decide; congruence.
    + intros [Hall ->]. apply Forall_cons in Hall as [[b Hb] Hall].
      rewrite Hb. csimpl.
      rewrite (proj2 (IH _) (conj Hall eq_refl)). csimpl.
      destruct b; case_decide; congruence.
Qed.

Lemma filterM_fixed {A} (p : A → result bool) (l : list A) :
  Forall (λ x, p x = Ok true) l → filterM p l = Ok l.
Proof.
  intros H. apply filterM_Ok. split.
  - eapply Forall_impl; [exact H|]. naive_solver.
  - induction H as [|x l Hx H IH]; [done|].
    rewrite filter_cons. case_decide; [by f_equal|done].
Qed.

Lemma mapM_cons {A B} (f : A → result B) (x : A) (l : list A) :
  mapM f (x :: l) = f x ≫= λ y, mapM f l ≫= λ k, Ok (y :: k).
Proof. reflexivity. Qed.

Lemma filterM_cons {A} (p : A → result bool) (x : A) (l : list A) :
  filterM p (x :: l) =
    p x ≫= λ b : bool, filterM p l ≫= λ l', Ok (if b then x :: l' else l').
Proof. reflexivity. Qed.

Lemma mapM_obj_compare (xs : list (option string)) :
  mapM obj_compare xs =
    if decide (Forall (λ o, o = None) xs)
    then Ok ((λ _, false) <$> xs) else Raise TypeError.
Proof.
  induction xs as [|o xs IH]; [done|].
  rewrite mapM_cons, IH. destruct o as [s|]; csimpl.
  - destruct (decide (Forall (λ o, o = None) (Some s :: xs))) as [H|H]; [|done].
    by apply Forall_cons in H as [[=] _].
  - destruct (decide (Forall (λ o, o = None) xs)) as [H1|H1];
      destruct (decide (Forall (λ o, o = None) (None :: xs))) as [H2|H2];
      csimpl; try done.
    + destruct H2. by constructor.
    + by apply Forall_cons in H2 as [_ ?].
Qed.

Lemma filterM_obj_compare {A} (g : A → option string) (l : list A) :
  filterM (λ r, obj_compare (g r)) l =
    if decide (Forall (λ o, o = None) (g <$> l))
    then Ok [] else Raise TypeError.
Proof.
  induction l as [|r l IH]; [done|].
  rewrite filterM_cons, IH, fmap_cons. destruct (g r) as [s|]; csimpl.
  - destruct (decide (Forall (λ o, o = None) (Some s :: (g <$> l)))) as [H|H]; [|done].
    by apply Forall_cons in H as [[=] _].
  - destruct (decide (Forall (λ o, o = None) (g <$> l))) as [H1|H1];
      destruct (decide (Forall (λ o, o = None) (None :: (g <$> l)))) as [H2|H2];
      csimpl; try done.
    + destruct H2. by constructor.
    + by apply Forall_cons in H2 as [_ ?].
Qed.

(** ** Columns *)

Lemma getitem_locate (df : DataFrame) (c : string) :
  getitem df c =
    loc ← locate df c;
    Ok (match loc with
        | inl k => FloatSeries (num_cell k <$> rows df)
        | inr k => ObjectSeries (obj_cell k <$> rows df)
        end).
Proof.
  unfold getitem, locate.
  destruct (index_of c (num_columns df)); [done|].
  by destruct (index_of c (obj_columns df)).
Qed.

Lemma locate_sub_frame (d' d : DataFrame) (c : string) :
  num_columns d' = num_columns d → obj_columns d' = obj_columns d →
  locate d' c = locate d c.
Proof. unfold locate. by intros -> ->. Qed.

Lemma row_test_sub_frame (d' d : DataFrame) (f : FilterInfo) :
  num_columns d' = num_columns d → obj_columns d' = obj_columns d →
  row_test d' f = row_test d f.
Proof.
  intros Hn Ho. unfold row_test.
  destruct f as [c a sel|c lo hi r]; by rewrite ?(locate_sub_frame d' d).
Qed.

(** One step of the chain keeps the rows that pass the test of the
    filter. *)
Lemma filter_step_rows (df : DataFrame) (f : FilterInfo) :
  filter_step df f =
    t ← row_test df f; rs ← filterM t (rows df); Ok (with_rows df rs).
Proof.
  destruct f as [c a sel|c lo hi [r1 r2]]; unfold filter_step, row_test.
  - destruct sel as [|v sel]; csimpl.
    { by rewrite filterM_false. }
    rewrite getitem_locate. destruct (locate df c) as [[k|k]|e]; csimpl; [| |done].
    + rewrite filterM_false. csimpl. unfold getitem_mask.
      by rewrite select_all_false.
    + rewrite filterM_pure. csimpl. unfold getitem_mask, with_rows.
      rewrite <- list_fmap_compose. by rewrite (select_fmap (obj_isin (v :: sel) ∘ obj_cell k)).
  - rewrite getitem_locate. destruct (locate df c) as [[k|k]|e]; csimpl; [| |done].
    + rewrite filterM_pure. csimpl. unfold getitem_mask, with_rows.
      rewrite <- !list_fmap_compose, mask_and_fmap.
      by rewrite (select_fmap (λ r, fge (num_cell k r) r1 && fle (num_cell k r) r2)).
    + rewrite mapM_obj_compare, filterM_obj_compare.
      destruct (decide (Forall _ _)); csimpl; [|done].
      unfold getitem_mask, with_rows. f_equal. f_equal.
      generalize (rows df). intros l. generalize (obj_cell k <$> l). intros xs.
      revert l. induction xs as [|x xs IH]; intros [|y l]; csimpl; auto.
Qed.

(** ** The chain *)

Lemma apply_current_filters_eq (st : SessionState) (df : DataFrame) :
  apply_current_filters st df = apply_filters_to_data df (active_filters st).
Proof.
  unfold apply_current_filters. generalize (active_filters st). intros fs.
  revert df. induction fs as [|f fs IH]; intros df; [done|].
  csimpl. destruct (filter_step df f); csimpl; auto.
Qed.

Lemma apply_filters_app (df : DataFrame) (F G : list FilterInfo) :
  apply_filters_to_data df (F ++ G) =
    apply_filters_to_data df F ≫= λ d, apply_filters_to_data d G.
Proof.
  revert df. induction F as [|f F IH]; intros df; [done|].
  csimpl. destruct (filter_step df f); csimpl; auto.
Qed.

Lemma filter_step_Ok (df d : DataFrame) (f : FilterInfo) :
  filter_step df f = Ok d ↔
  ∃ t, row_test df f = Ok t ∧
       Forall (λ r, ∃ b, t r = Ok b) (rows df) ∧
       d = with_rows df (filter (λ r, t r = Ok true) (rows df)).
Proof.
  rewrite filter_step_rows. split.
  - intros H. inv_result. apply filterM_Ok in Ha0 as [Hall ->].
    exists a. by rewrite <- H.
  - intros (t & Ht & Hall & ->). rewrite Ht. csimpl.
    by rewrite (proj2 (filterM_Ok t _ _) (conj Hall eq_refl)).
Qed.

Lemma filter_step_sub_frame (df d : DataFrame) (f : FilterInfo) :
  filter_step df f = Ok d → sub_frame d df.
Proof.
  intros (t & _ & _ & ->)%filter_step_Ok. repeat split.
  intros r. simpl. rewrite list_elem_of_filter. tauto.
Qed.

Lemma sub_frame_refl (d : DataFrame) : sub_frame d d.
Proof. by repeat split. Qed.

Lemma sub_frame_trans (d1 d2 d3 : DataFrame) :
  sub_frame d1 d2 → sub_frame d2 d3 → sub_frame d1 d3.
Proof.
  intros (? & ? & H1) (? & ? & H2). repeat split; try congruence.
  intros r Hr. by apply H2, H1.
Qed.

Lemma apply_filters_sub_frame (df d : DataFrame) (F : list FilterInfo) :
  apply_filters_to_data df F = Ok d → sub_frame d df.
Proof.
  revert df. induction F as [|f F IH]; intros df H; csimpl in H.
  - inv_result. subst. apply sub_frame_refl.
  - inv_result. eapply sub_frame_trans; [by apply IH|].
    by eapply filter_step_sub_frame.
Qed.

Lemma with_rows_id (d : DataFrame) : with_rows d (rows d) = d.
Proof. by destruct d. Qed.

(** A frame whose rows all pass a filter is left as it is, and so is
    every frame of rows that survived the filter. *)
Lemma filter_step_fixed (df d d' : DataFrame) (f : FilterInfo) :
  filter_step df f = Ok d → sub_frame d' d → filter_step d' f = Ok d'.
Proof.
  intros (t & Ht & Hall & ->)%filter_step_Ok (Hn & Ho & Hrows).
  apply filter_step_Ok. exists t. split.
  { by rewrite (row_test_sub_frame d' df). }
  simpl in Hrows.
  assert (Forall (λ r, t r = Ok true) (rows d')) as Hpass.
  { apply Forall_forall. intros r Hr. apply Hrows in Hr.
    by apply list_elem_of_filter in Hr as [? _]. }
  split.
  - eapply Forall_impl; [exact Hpass|]. naive_solver.
  - rewrite <- (with_rows_id d') at 1. unfold with_rows. f_equal.
    clear -Hpass. induction Hpass as [|r l Hr H IH]; [done|].
    rewrite filter_cons. case_decide; [by f_equal|done].
Qed.

Lemma apply_filters_fixed (df d d' : DataFrame) (F : list FilterInfo) :
  apply_filters_to_data df F = Ok d → sub_frame d' d →
  apply_filters_to_data d' F = Ok d'.
Proof.
  revert df. induction F as [|f F IH]; intros df H Hsub; [done|].
  csimpl in H. inv_result. csimpl.
  rewrite (filter_step_fixed df a d' f); [by eapply IH|done|].
  eapply sub_frame_trans; [exact Hsub|]. by eapply apply_filters_sub_frame.
Qed.

(** C7: [apply_filters_to_data] is idempotent: the chain applied to its
    own output returns that output. *)
Theorem apply_filters_idempotent (df : DataFrame) (F : list FilterInfo) :
  apply_filters_to_data df F ≫= (λ d, apply_filters_to_data d F)
  = apply_filters_to_data df F.
Proof.
  destruct (apply_filters_to_data df F) as [d|e] eqn:H; [|done].
  csimpl. eapply apply_filters_fixed; [exact H|]. apply sub_frame_refl.
Qed.

(** ** Values of a column *)

Lemma elem_of_unique (l : list string) (x : string) : x ∈ unique l ↔ x ∈ l.
Proof.
  induction l as [|y l IH]; [done|]. csimpl.
  rewrite !elem_of_cons, list_elem_of_filter, IH.
  destruct (decide (x = y)); tauto.
Qed.

Lemma NoDup_unique (l : list string) : NoDup (unique l).
Proof.
  induction l as [|y l IH]; csimpl; [constructor|].
  constructor; [|by apply NoDup_filter].
  rewrite list_elem_of_filter. tauto.
Qed.

Lemma Sorted_sorted (l : list string) : Sorted String.le (sorted l).
Proof. apply Sorted_merge_sort; apply _. Qed.

Lemma elem_of_sorted (l : list string) (x : string) : x ∈ sorted l ↔ x ∈ l.
Proof. unfold sorted. by rewrite merge_sort_Permutation. Qed.

Lemma NoDup_sorted (l : list string) : NoDup l → NoDup (sorted l).
Proof. unfold sorted. by rewrite merge_sort_Permutation. Qed.

Lemma StronglySorted_sorted (l : list string) :
  StronglySorted String.le (sorted l).
Proof. apply StronglySorted_merge_sort; apply _. Qed.

Create HintDb frames.

#[global] Hint Resolve Sorted_sorted StronglySorted_sorted NoDup_sorted
  NoDup_unique : frames.

Lemma elem_of_dropna_obj (xs : list (option string)) (v : string) :
  v ∈ dropna_obj xs ↔ Some v ∈ xs.
Proof.
  unfold dropna_obj. rewrite list_elem_of_omap. split.
  - intros (o & Ho & Hv). by rewrite <- Hv.
  - intros H. by exists (Some v).
Qed.

Lemma elem_of_finite_values (xs : list float) (q : Q) :
  q ∈ finite_values xs ↔ Fin q ∈ xs.
Proof.
  unfold finite_values. rewrite list_elem_of_omap. split.
  - intros ([|q'] & Hx & [=]). by subst.
  - intros H. by exists (Fin q).
Qed.

Lemma nanmin_is_min (xs : list float) : is_min (nanmin xs) xs.
Proof.
  induction xs as [|x xs IH]; [done|].
  unfold nanmin in *. csimpl. destruct x as [|q].
  - destruct (foldr _ _ xs) as [|a]; csimpl in *; [done|].
    destruct IH as [Hin Hle]. split; [by right|].
    intros q' Hq. apply elem_of_cons in Hq as [Hq|Hq]; [discriminate|by apply Hle].
  - destruct (foldr _ _ xs) as [|a]; csimpl in *.
    + split; [by left|]. intros q' [[= ->]|H]%elem_of_cons.
      * apply Qle_refl.
      * apply elem_of_finite_values in H. rewrite IH in H. by apply elem_of_nil in H.
    + destruct IH as [Hin Hle].
      destruct (Qle_bool q a) eqn:Hqa; csimpl.
      * apply Qle_bool_iff in Hqa. split; [by left|].
        intros q' [[= ->]|H]%elem_of_cons; [apply Qle_refl|].
        eapply Qle_trans; [exact Hqa|by apply Hle].
      * split; [by right|].
        intros q' [[= ->]|H]%elem_of_cons; [|by apply Hle].
        destruct (Qlt_le_dec a q) as [Hlt|Hge]; [by apply Qlt_le_weak|].
        apply Qle_bool_iff in Hge. congruence.
Qed.

Lemma nanmax_is_max (xs : list float) : is_max (nanmax xs) xs.
Proof.
  induction xs as [|x xs IH]; [done|].
  unfold nanmax in *. csimpl. destruct x as [|q].
  - destruct (foldr _ _ xs) as [|a]; csimpl in *; [done|].
    destruct IH as [Hin Hle]. split; [by right|].
    intros q' Hq. apply elem_of_cons in Hq as [Hq|Hq]; [discriminate|by apply Hle].
  - destruct (foldr _ _ xs) as [|a]; csimpl in *.
    + split; [by left|]. intros q' [[= ->]|H]%elem_of_cons.
      * apply Qle_refl.
      * apply elem_of_finite_values in H. rewrite IH in H. by apply elem_of_nil in H.
    + destruct IH as [Hin Hle].
      destruct (Qle_bool a q) eqn:Hqa; csimpl.
      * apply Qle_bool_iff in Hqa. split; [by left|].
        intros q' [[= ->]|H]%elem_of_cons; [apply Qle_refl|].
        eapply Qle_trans; [by apply Hle|exact Hqa].
      * split; [by right|].
        intros q' [[= ->]|H]%elem_of_cons; [|by apply Hle].
        destruct (Qlt_le_dec q a) as [Hlt|Hge]; [by apply Qlt_le_weak|].
        apply Qle_bool_iff in Hge. congruence.
Qed.

Lemma index_of_elem_of (c : string) (l : list string) :
  c ∈ l → is_Some (index_of c l).
Proof.
  intros H. unfold index_of.
  destruct (list_find_elem_of (λ x, x = c) l c H eq_refl) as [p ->]. by eexists.
Qed.

Lemma locate_elem_of (df : DataFrame) (c : string) :
  c ∈ num_columns df ++ obj_columns df → ∃ loc, locate df c = Ok loc.
Proof.
  intros [H|H]%elem_of_app; unfold locate.
  - apply index_of_elem_of in H as [k ->]. eauto.
  - destruct (index_of c (num_columns df)); [eauto|].
    apply index_of_elem_of in H as [k ->]. eauto.
Qed.



(** ** Removing a filter *)

(** C5: the remove button takes out exactly the filter at the given
    index; the filters before it keep their place, the filters after it
    move up by one, and every remaining filter keeps its domain fields. *)
Theorem remove_filter_keeps_domains (st : SessionState) (i : nat) :
  i < length (active_filters st) →
  ∃ st', remove_filter i st = Ok st' ∧
    length (active_filters st') = length (active_filters st) - 1 ∧
    (∀ j, j < i → active_filters st' !! j = active_filters st !! j) ∧
    (∀ j, (i ≤ j)%nat → active_filters st' !! j = active_filters st !! S j) ∧
    domain <$> active_filters st' = delete i (domain <$> active_filters st).
Proof.
  intros Hi. unfold remove_filter, list_pop.
  destruct (lookup_lt_is_Some_2 _ _ Hi) as [f Hf]. rewrite Hf. csimpl.
  eexists. split; [reflexivity|]. csimpl.
  split; [by apply length_delete|].
  split; [intros j Hj; by apply list_lookup_delete_lt|].
  split; [intros j Hj; by apply list_lookup_delete_ge|].
  apply list_fmap_delete.
Qed.

Lemma remove_filter_keeps_domains_witness :
  ∃ st', remove_filter 0 state_E = Ok st' ∧
    length (active_filters st') = length (active_filters state_E) - 1 ∧
    (∀ j, j < 0 → active_filters st' !! j = active_filters state_E !! j) ∧
    (∀ j, (0 ≤ j)%nat → active_filters st' !! j = active_filters state_E !! S j) ∧
    domain <$> active_filters st' = delete 0 (domain <$> active_filters state_E).
Proof. apply (remove_filter_keeps_domains state_E 0). simpl. lia. Defined.

(** Out of range there is nothing to remove: [pop] raises. *)
Lemma remove_filter_out_of_range (st : SessionState) (i : nat) :
  (length (active_filters st) ≤ i)%nat → remove_filter i st = Raise IndexError.
Proof.
  intros Hi. unfold remove_filter, list_pop.
  by rewrite (lookup_ge_None_2 _ _ Hi).
Qed.

(** ** A numeric filter on a column without values *)

Lemma nanmin_no_values (xs : list float) :
  finite_values xs = [] → nanmin xs = NaN.
Proof.
  intros H. pose proof (nanmin_is_min xs) as Hm.
  destruct (nanmin xs) as [|q]; [done|]. destruct Hm as [Hin _].
  apply elem_of_finite_values in Hin. rewrite H in Hin. by apply elem_of_nil in Hin.
Qed.

Lemma nanmax_no_values (xs : list float) :
  finite_values xs = [] → nanmax xs = NaN.
Proof.
  intros H. pose proof (nanmax_is_max xs) as Hm.
  destruct (nanmax xs) as [|q]; [done|]. destruct Hm as [Hin _].
  apply elem_of_finite_values in Hin. rewrite H in Hin. by apply elem_of_nil in Hin.
Qed.

Lemma getitem_FloatSeries (df : DataFrame) (c : string) (xs : list float) :
  getitem df c = Ok (FloatSeries xs) →
  ∃ k, locate df c = Ok (inl k) ∧ xs = num_cell k <$> rows df.
Proof.
  rewrite getitem_locate. intros H. inv_result.
  destruct a as [k|k]; [|done]. injection H as <-. eauto.
Qed.

Lemma getitem_ObjectSeries (df : DataFrame) (c : string) (xs : list (option string)) :
  getitem df c = Ok (ObjectSeries xs) →
  ∃ k, locate df c = Ok (inr k) ∧ xs = obj_cell k <$> rows df.
Proof.
  rewrite getitem_locate. intros H. inv_result.
  destruct a as [k|k]; [done|]. injection H as <-. eauto.
Qed.

Lemma filter_none {A} (P : A → Prop) `{!∀ x, Decision (P x)} (l : list A) :
  Forall (λ x, ¬ P x) l → filter P l = [].
Proof.
  induction 1 as [|x l Hx Hl IH]; [done|].
  rewrite filter_cons. by case_decide.
Qed.

Lemma filter_all {A} (P : A → Prop) `{!∀ x, Decision (P x)} (l : list A) :
  Forall P l → filter P l = l.
Proof.
  induction 1 as [|x l Hx Hl IH]; [done|].
  rewrite filter_cons. case_decide; [by f_equal|done].
Qed.

Lemma filter_ext_in {A} (P Q : A → Prop)
    `{!∀ x, Decision (P x), !∀ x, Decision (Q x)} (l : list A) :
  (∀ x, x ∈ l → P x ↔ Q x) → filter P l = filter Q l.
Proof.
  induction l as [|x l IH]; intros Hext; [done|].
  rewrite !filter_cons, IH by (intros y Hy; apply Hext; by right).
  pose proof (Hext x (list_elem_of_here _ _)).
  repeat case_decide; tauto || done.
Qed.

Lemma apply_filters_single (d : DataFrame) (f : FilterInfo) :
  apply_filters_to_data d [f] = filter_step d f.
Proof. csimpl. by destruct (filter_step d f). Qed.

(** C10: when the frame narrowed by the active filters has no value in a
    numeric column, [add_new_filter] still succeeds: the bounds and the
    range of the new filter are NaN, and the chain with the new filter
    keeps no row. *)
Theorem add_numeric_filter_without_values
    (df filtered_df : DataFrame) (column : string) (xs : list float)
    (st : SessionState) :
  apply_filters_to_data df (active_filters st) = Ok filtered_df →
  getitem filtered_df column = Ok (FloatSeries xs) →
  finite_values xs = [] →
  add_new_filter df column st
    = Ok (append_filter st (numeric column NaN NaN (NaN, NaN))) ∧
  apply_filters_to_data df
      (active_filters (append_filter st (numeric column NaN NaN (NaN, NaN))))
    = Ok (iloc_empty filtered_df).
Proof.
  intros Hf Hg Hxs.
  destruct (apply_filters_sub_frame _ _ _ Hf) as (Hn & Ho & _).
  destruct (getitem_FloatSeries _ _ _ Hg) as (k & Hloc & ->).
  split.
  - unfold add_new_filter. rewrite apply_current_filters_eq, Hf. csimpl.
    rewrite Hg, getitem_locate, <- (locate_sub_frame filtered_df df), Hloc by done.
    csimpl. by rewrite nanmin_no_values, nanmax_no_values.
  - cbn [active_filters append_filter set_active_filters].
    rewrite apply_filters_app, Hf. cbn [mbind result_bind].
    rewrite apply_filters_single, filter_step_rows.
    unfold row_test. rewrite Hloc. csimpl.
    rewrite filterM_pure. csimpl. unfold iloc_empty, with_rows. do 2 f_equal.
    apply filter_none, Forall_forall. intros r _.
    unfold fge, fle. by destruct (num_cell k r).
Qed.

Lemma add_numeric_filter_without_values_witness :
  add_new_filter frame_w "w" state_Y
    = Ok (append_filter state_Y (numeric "w" NaN NaN (NaN, NaN))) ∧
  apply_filters_to_data frame_w
      (active_filters (append_filter state_Y (numeric "w" NaN NaN (NaN, NaN))))
    = Ok (iloc_empty (with_rows frame_w [mkRow [n 2; NaN] [Some "Y"]])).
Proof.
  apply (add_numeric_filter_without_values frame_w _ "w" [NaN] state_Y);
    reflexivity.
Defined.

(** ** A numeric filter over the full range *)

(** The rows of a frame that satisfy a boolean test *)
Lemma apply_filters_restrict (d d' : DataFrame) (F : list FilterInfo)
    (p : Row → bool) :
  apply_filters_to_data d F = Ok d' →
  apply_filters_to_data (with_rows d (filter (λ r, p r = true) (rows d))) F
    = Ok (with_rows d' (filter (λ r, p r = true) (rows d'))).
Proof.
  revert d. induction F as [|f F IH]; intros d H; csimpl in H.
  - by injection H as ->.
  - inv_result. apply filter_step_Ok in Ha as (t & Ht & Hall & ->).
    apply IH in H. csimpl in H.
    rewrite list_filter_filter in H.
    csimpl.
    rewrite (proj2 (filter_step_Ok _
      (with_rows d (filter (λ r, p r = true ∧ t r = Ok true) (rows d))) f)).
    + exact H.
    + exists t. split; [by rewrite (row_test_sub_frame _ d)|].
      split.
      * csimpl. apply Forall_forall. intros r [_ Hr]%list_elem_of_filter.
        by eapply Forall_forall in Hall.
      * unfold with_rows. csimpl. f_equal.
        rewrite list_filter_filter. apply list_filter_iff. tauto.
Qed.

Lemma full_range_test (xs : list float) (x : float) :
  x ∈ xs →
  fge x (nanmin xs) && fle x (nanmax xs) = negb (isnan x).
Proof.
  intros Hx. destruct x as [|q].
  { unfold fge, fle. by destruct (nanmin xs). }
  csimpl.
  pose proof (nanmin_is_min xs) as Hmin. pose proof (nanmax_is_max xs) as Hmax.
  assert (q ∈ finite_values xs) as Hq by by apply elem_of_finite_values.
  destruct (nanmin xs) as [|lo]; csimpl in *.
  { rewrite Hmin in Hq. by apply elem_of_nil in Hq. }
  destruct (nanmax xs) as [|hi]; csimpl in *.
  { rewrite Hmax in Hq. by apply elem_of_nil in Hq. }
  destruct Hmin as [_ Hmin]. destruct Hmax as [_ Hmax].
  apply andb_true_iff. split; apply Qle_bool_iff; auto.
Qed.

(** C8: a numeric filter whose range is the full (min, max) of its
    column keeps the rows with a value in that column and drops the rows
    where the value is missing; on a column without missing values it
    changes nothing. *)
Theorem full_range_filter_keeps_values
    (df d : DataFrame) (column : string) (xs : list float)
    (F1 F2 : list FilterInfo) :
  getitem df column = Ok (FloatSeries xs) →
  apply_filters_to_data df (F1 ++ F2) = Ok d →
  apply_filters_to_data df
      (F1 ++ numeric column (nanmin xs) (nanmax xs) (nanmin xs, nanmax xs) :: F2)
    = notna_rows d column ∧
  (Forall (λ x, x ≠ NaN) xs → notna_rows d column = Ok d).
Proof.
  intros Hg HF.
  destruct (getitem_FloatSeries _ _ _ Hg) as (k & Hloc & Hxs).
  rewrite apply_filters_app in HF. inv_result. rename a into d1.
  destruct (apply_filters_sub_frame _ _ _ Ha) as (Hn1 & Ho1 & Hr1).
  destruct (apply_filters_sub_frame _ _ _ HF) as (Hn & Ho & Hr).
  assert (notna_rows d column
          = Ok (with_rows d (filter (λ r, negb (isnan (num_cell k r)) = true) (rows d))))
    as Hnotna.
  { unfold notna_rows. rewrite getitem_locate, (locate_sub_frame d df), Hloc
      by congruence.
    csimpl. unfold getitem_mask, with_rows. f_equal. f_equal.
    rewrite <- list_fmap_compose.
    apply (select_fmap (λ r, negb (isnan (num_cell k r)))). }
  split.
  - rewrite Hnotna, apply_filters_app, Ha. cbn [mbind result_bind].
    change (apply_filters_to_data d1 (?f :: F2))
      with (filter_step d1 f ≫= λ d2, apply_filters_to_data d2 F2).
    rewrite (proj2 (filter_step_Ok d1
      (with_rows d1 (filter (λ r, negb (isnan (num_cell k r)) = true) (rows d1))) _)).
    + cbn [mbind result_bind].
      by apply (apply_filters_restrict d1 d F2 (λ r, negb (isnan (num_cell k r)))).
    + eexists. split.
      { unfold row_test. rewrite (locate_sub_frame d1 df), Hloc by done.
        reflexivity. }
      split; [apply Forall_forall; eauto|].
      unfold with_rows. f_equal. apply filter_ext_in. intros r Hin. csimpl.
      rewrite full_range_test; [split; congruence|].
      subst xs. apply list_elem_of_fmap. exists r. split; [done|]. by apply Hr1.
  - intros Hall. rewrite Hnotna. rewrite filter_all; [by rewrite with_rows_id|].
    apply Forall_forall. intros r Hin.
    assert (num_cell k r ∈ xs) as Hx.
    { subst xs. apply list_elem_of_fmap. exists r. split; [done|].
      by apply Hr1, Hr. }
    eapply Forall_forall in Hall; [|exact Hx].
    by destruct (num_cell k r).
Qed.

Lemma full_range_filter_keeps_values_witness :
  apply_filters_to_data frame_missing
      ([filter_Y] ++ numeric "v" (nanmin [n 1; NaN; n 3]) (nanmax [n 1; NaN; n 3])
                       (nanmin [n 1; NaN; n 3], nanmax [n 1; NaN; n 3]) :: [])
    = notna_rows (with_rows frame_missing [mkRow [n 3] [Some "Y"]]) "v" ∧
  notna_rows scenario_A "v" = Ok scenario_A.
Proof.
  split.
  - apply (full_range_filter_keeps_values frame_missing _ "v" _ [filter_Y] []);
      reflexivity.
  - apply (full_range_filter_keeps_values scenario_A scenario_A "v"
             [n 1; n 2; n 100] [] []); [reflexivity..|].
    repeat constructor; discriminate.
Defined.

(** C8, as stated, fails on a column with a missing value: the filter
    over the full range (1, 3) of [v] drops the row whose [v] is
    missing. *)
Lemma full_range_filter_drops_missing :
  getitem frame_missing "v" = Ok (FloatSeries [n 1; NaN; n 3]) ∧
  nanmin [n 1; NaN; n 3] = n 1 ∧ nanmax [n 1; NaN; n 3] = n 3 ∧
  apply_filters_to_data frame_missing [numeric "v" (n 1) (n 3) (n 1, n 3)]
    = Ok (with_rows frame_missing
            [mkRow [n 1] [Some "X"]; mkRow [n 3] [Some "Y"]]) ∧
  apply_filters_to_data frame_missing [numeric "v" (n 1) (n 3) (n 1, n 3)]
    ≠ apply_filters_to_data frame_missing [].
Proof. repeat split; try reflexivity. intros H. discriminate H. Qed.

(** ** Quartiles and fences *)

Lemma finite_values_Fin (samples : list Q) :
  finite_values (Fin <$> samples) = samples.
Proof.
  unfold finite_values. induction samples as [|q l IH]; [done|].
  csimpl. by rewrite IH.
Qed.

Lemma nth_head_elem_of {A} (i : nat) (x : A) (l : list A) :
  nth i (x :: l) x ∈ x :: l.
Proof.
  destruct (decide (i < length (x :: l))) as [Hi|Hi].
  - apply list_elem_of_In, nth_In, Hi.
  - rewrite nth_overflow by lia. by left.
Qed.

(** A quantile of a non-empty sample lies on the segment between two of
    its values. *)
Lemma quantile_form (samples : list Q) (q : Q) :
  samples ≠ [] →
  ∃ a b t, a ∈ samples ∧ b ∈ samples ∧
           quantile (Fin <$> samples) q = Fin (a + (b - a) * t).
Proof.
  intros Hne. unfold quantile. rewrite finite_values_Fin.
  pose proof (merge_sort_Permutation Qle_rel samples) as Hp.
  destruct (merge_sort Qle_rel samples) as [|v0 v] eqn:Hv.
  { symmetry in Hp. by apply Permutation_nil_r in Hp. }
  eexists _, _, _. split; [|split; [|reflexivity]].
  - rewrite <- Hp. apply nth_head_elem_of.
  - rewrite <- Hp. apply nth_head_elem_of.
Qed.

Lemma quantile_empty (q : Q) : quantile [] q = NaN.
Proof. reflexivity. Qed.

(** The fences of a non-empty sample of numbers are numbers. *)
Lemma fence_finite (samples : list Q) :
  samples ≠ [] →
  ∃ q1 q3, fence (Fin <$> samples) =
    mkFence (Fin q1) (Fin q3) (Fin (q3 - q1))
      (Fin (q1 - (3 # 2) * (q3 - q1))) (Fin (q3 + (3 # 2) * (q3 - q1))).
Proof.
  intros Hne. unfold fence.
  destruct (quantile_form samples (1 # 4) Hne) as (a1 & b1 & t1 & _ & _ & ->).
  destruct (quantile_form samples (3 # 4) Hne) as (a3 & b3 & t3 & _ & _ & ->).
  by eexists _, _.
Qed.

Lemma outliers_filter (data : list float) :
  outliers data =
    filter (λ x, flt x (lower_bound (fence data))
                 || fgt x (upper_bound (fence data)) = true) data.
Proof.
  unfold outliers. cbv zeta. rewrite mask_or_fmap.
  apply (select_fmap (λ x, flt x _ || fgt x _)).
Qed.

Lemma normal_data_filter (data : list float) :
  normal_data data =
    filter (λ x, fge x (lower_bound (fence data))
                 && fle x (upper_bound (fence data)) = true) data.
Proof.
  unfold normal_data. cbv zeta. rewrite mask_and_fmap.
  apply (select_fmap (λ x, fge x _ && fle x _)).
Qed.

(** Against two numbers, a number is outside the fence exactly when it
    is not inside. *)
Lemma outside_not_inside (q lo hi : Q) :
  flt (Fin q) (Fin lo) || fgt (Fin q) (Fin hi)
  = negb (fge (Fin q) (Fin lo) && fle (Fin q) (Fin hi)).
Proof.
  unfold fgt, fge, flt, fle.
  destruct (Qle_bool lo q), (Qle_bool q hi); reflexivity.
Qed.

Lemma classify_complement (samples : list Q) (x : float) :
  x ∈ Fin <$> samples →
  flt x (lower_bound (fence (Fin <$> samples)))
    || fgt x (upper_bound (fence (Fin <$> samples))) = true ↔
  ¬ (fge x (lower_bound (fence (Fin <$> samples)))
       && fle x (upper_bound (fence (Fin <$> samples))) = true).
Proof.
  intros (q & -> & Hq)%list_elem_of_fmap.
  assert (samples ≠ []) as Hne by (intros ->; by apply elem_of_nil in Hq).
  destruct (fence_finite samples Hne) as (q1 & q3 & ->). cbn [lower_bound upper_bound].
  rewrite outside_not_inside.
  destruct (fge _ _ && fle _ _); csimpl; split; congruence.
Qed.


Lemma Qle_bool_both (q lo hi c : Q) :
  (lo == c)%Q → (hi == c)%Q →
  Qle_bool lo q && Qle_bool q hi = Qeq_bool q c.
Proof.
  intros Hlo Hhi. apply eq_true_iff_eq.
  rewrite andb_true_iff, !Qle_bool_iff, Qeq_bool_iff. split.
  - intros [H1 H2]. lra.
  - intros H. split; lra.
Qed.

(** With an interquartile range of zero the fence is the single point
    Q1 = Q3. *)
Lemma inside_zero_IQR (samples : list Q) (x : float) :
  feq (IQR (fence (Fin <$> samples))) (Fin 0) = true →
  x ∈ Fin <$> samples →
  fge x (lower_bound (fence (Fin <$> samples)))
    && fle x (upper_bound (fence (Fin <$> samples)))
  = feq x (Q1 (fence (Fin <$> samples))).
Proof.
  intros HIQR (q & -> & Hq)%list_elem_of_fmap.
  assert (samples ≠ []) as Hne by (intros ->; by apply elem_of_nil in Hq).
  destruct (fence_finite samples Hne) as (q1 & q3 & Hf).
  rewrite Hf in *. cbn [lower_bound upper_bound Q1 IQR] in *.
  unfold feq in HIQR. apply Qeq_bool_iff in HIQR.
  unfold fge, fle, feq. apply Qle_bool_both; lra.
Qed.

(** C4: a sample with fewer than two distinct values has no outlier and
    all its points are normal.  When the interquartile range is zero the
    fence is the single point Q1 = Q3: the samples equal to it are normal
    and every other sample is an outlier. *)
Theorem classify_degenerate (samples : list Q) :
  ((∀ x y, x ∈ samples → y ∈ samples → (x == y)%Q) →
   (classify (Fin <$> samples)).1.2 = [] ∧
   (classify (Fin <$> samples)).1.1 = Fin <$> samples) ∧
  (feq (IQR (fence (Fin <$> samples))) (Fin 0) = true →
   (classify (Fin <$> samples)).1.1
     = filter (λ x, feq x (Q1 (fence (Fin <$> samples))) = true) (Fin <$> samples) ∧
   (classify (Fin <$> samples)).1.2
     = filter (λ x, feq x (Q1 (fence (Fin <$> samples))) = false) (Fin <$> samples)).
Proof.
  unfold classify. cbn [fst snd].
  assert (feq (IQR (fence (Fin <$> samples))) (Fin 0) = true →
          normal_data (Fin <$> samples)
            = filter (λ x, feq x (Q1 (fence (Fin <$> samples))) = true) (Fin <$> samples) ∧
          outliers (Fin <$> samples)
            = filter (λ x, feq x (Q1 (fence (Fin <$> samples))) = false) (Fin <$> samples))
    as Hzero.
  { intros HIQR. rewrite outliers_filter, normal_data_filter. split.
    - apply filter_ext_in. intros x Hx. by rewrite inside_zero_IQR.
    - apply filter_ext_in. intros x Hx.
      rewrite classify_complement, inside_zero_IQR by done.
      by destruct (feq x _). }
  split; [|exact Hzero].
  intros Hsame. destruct samples as [|s samples]; [done|].
  set (l := s :: samples) in *.
  assert (l ≠ []) as Hne by done.
  destruct (quantile_form l (1 # 4) Hne) as (a1 & b1 & t1 & Ha1 & Hb1 & HQ1).
  destruct (quantile_form l (3 # 4) Hne) as (a3 & b3 & t3 & Ha3 & Hb3 & HQ3).
  assert (∀ q, q ∈ l → feq (Fin q) (Q1 (fence (Fin <$> l))) = true) as Heq.
  { intros q Hq. unfold fence. cbn [Q1]. rewrite HQ1. unfold feq.
    apply Qeq_bool_iff.
    pose proof (Hsame q a1 Hq Ha1). pose proof (Hsame b1 a1 Hb1 Ha1).
    setoid_replace b1 with a1 using relation Qeq by done. lra. }
  destruct Hzero as [-> ->].
  - unfold fence. cbn [IQR]. rewrite HQ1, HQ3. unfold fsub, feq.
    apply Qeq_bool_iff.
    pose proof (Hsame b1 a1 Hb1 Ha1). pose proof (Hsame b3 a3 Hb3 Ha3).
    pose proof (Hsame a3 a1 Ha3 Ha1).
    setoid_replace b1 with a1 using relation Qeq by done. setoid_replace b3 with a3 using relation Qeq by done. lra.
  - split.
    + apply filter_none, Forall_forall.
      intros x (q & -> & Hq)%list_elem_of_fmap. by rewrite Heq.
    + apply filter_all, Forall_forall.
      intros x (q & -> & Hq)%list_elem_of_fmap. by apply Heq.
Qed.

Lemma classify_degenerate_witness :
  ((classify (Fin <$> [5; 5; 5]%Q)).1.2 = [] ∧
   (classify (Fin <$> [5; 5; 5]%Q)).1.1 = Fin <$> [5; 5; 5]%Q) ∧
  ((classify (Fin <$> [1; 5; 5; 5; 5; 5; 9]%Q)).1.1
     = filter (λ x, feq x (Q1 (fence (Fin <$> [1; 5; 5; 5; 5; 5; 9]%Q))) = true)
         (Fin <$> [1; 5; 5; 5; 5; 5; 9]%Q) ∧
   (classify (Fin <$> [1; 5; 5; 5; 5; 5; 9]%Q)).1.2
     = filter (λ x, feq x (Q1 (fence (Fin <$> [1; 5; 5; 5; 5; 5; 9]%Q))) = false)
         (Fin <$> [1; 5; 5; 5; 5; 5; 9]%Q)).
Proof.
  split.
  - apply (classify_degenerate [5; 5; 5]%Q).
    intros x y Hx Hy.
    apply list_elem_of_In in Hx, Hy. simpl in Hx, Hy.
    destruct Hx as [<-|[<-|[<-|[]]]], Hy as [<-|[<-|[<-|[]]]]; reflexivity.
  - apply (classify_degenerate [1; 5; 5; 5; 5; 5; 9]%Q). reflexivity.
Defined.

(** C4, as stated, fails when the interquartile range is zero although
    the sample has several distinct values: in 1, 5, 5, 5, 5, 5, 9 both
    quartiles are 5, and 1 and 9 are outliers. *)
Lemma zero_IQR_has_outliers :
  feq (IQR (fence (Fin <$> [1; 5; 5; 5; 5; 5; 9]%Q))) (Fin 0) = true ∧
  (classify (Fin <$> [1; 5; 5; 5; 5; 5; 9]%Q)).1.2 = [Fin 1; Fin 9] ∧
  (classify (Fin <$> [1; 5; 5; 5; 5; 5; 9]%Q)).1.1
    = [Fin 5; Fin 5; Fin 5; Fin 5; Fin 5].
Proof. repeat split; reflexivity. Qed.

(** Scenario C of the test plan *)
Example scenario_C :
  outliers (Fin <$> [1; 2; 3; 4; 5; 100]%Q) = [Fin 100] ∧
  normal_data (Fin <$> [1; 2; 3; 4; 5; 100]%Q)
    = Fin <$> [1; 2; 3; 4; 5]%Q ∧
  feq (Q1 (fence (Fin <$> [1; 2; 3; 4; 5; 100]%Q))) (Fin (9 # 4)) = true ∧
  feq (Q3 (fence (Fin <$> [1; 2; 3; 4; 5; 100]%Q))) (Fin (19 # 4)) = true ∧
  feq (lower_bound (fence (Fin <$> [1; 2; 3; 4; 5; 100]%Q))) (Fin (-3 # 2)) = true ∧
  feq (upper_bound (fence (Fin <$> [1; 2; 3; 4; 5; 100]%Q))) (Fin (17 # 2)) = true.
Proof. repeat split; reflexivity. Qed.

(** ** Selecting columns *)

Lemma index_of_cons (c c0 : string) (l : list string) :
  index_of c (c0 :: l) = if decide (c0 = c) then Some 0 else S <$> index_of c l.
Proof.
  unfold index_of. cbn [list_find]. destruct (decide (c0 = c)); [done|].
  by destruct (list_find (λ x, x = c) l) as [[i x]|].
Qed.

Lemma index_of_None (c : string) (l : list string) :
  c ∉ l → index_of c l = None.
Proof.
  induction l as [|c0 l IH]; intros Hc; [done|].
  rewrite index_of_cons. apply not_elem_of_cons in Hc as [Hne Hc].
  rewrite decide_False by done. by rewrite IH.
Qed.

Section Projection.

(** The frame whose columns are selected *)
Variable df : DataFrame.

Lemma is_numeric_inl (c : string) (k : nat) :
  locate df c = Ok (inl k) → is_numeric df c = true.
Proof.
  unfold locate, is_numeric. intros H.
  destruct (index_of c (num_columns df)) as [k'|].
  - apply bool_decide_eq_true. by eexists.
  - by destruct (index_of c (obj_columns df)).
Qed.

Lemma is_numeric_inr (c : string) (k : nat) :
  locate df c = Ok (inr k) → is_numeric df c = false.
Proof.
  unfold locate, is_numeric. intros H.
  destruct (index_of c (num_columns df)) as [k'|]; [done|].
  apply bool_decide_eq_false. by intros [? [=]].
Qed.

Lemma mapM_Ok_Forall2 {A B} (f : A → result B) (l : list A) (k : list B) :
  mapM f l = Ok k ↔ Forall2 (λ x y, f x = Ok y) l k.
Proof.
  revert k. induction l as [|x l IH]; intros k.
  - split; [intros [= <-]; constructor|by intros ->%Forall2_nil_inv_l].
  - rewrite mapM_cons. split.
    + intros H. inv_result. subst. constructor; [done|by apply IH].
    + intros (y & k' & Hy & Hk & ->)%Forall2_cons_inv_l.
      rewrite Hy. cbn [mbind result_bind]. by rewrite (proj2 (IH k') Hk).
Qed.

Lemma getitem_list_Ok (P : DataFrame) (cols : list string) :
  getitem_list df cols = Ok P →
  ∃ locs, Forall2 (λ c loc, locate df c = Ok loc) cols locs ∧
    P = {| num_columns := filter (λ c, is_numeric df c = true) cols;
           obj_columns := filter (λ c, is_numeric df c = false) cols;
           rows := project_row locs <$> rows df |}.
Proof.
  unfold getitem_list. intros H. inv_result.
  exists a. split; [by apply mapM_Ok_Forall2|done].
Qed.

(** A selected numeric column is found in the projection, with the same
    cells. *)
Lemma project_num (cols : list string)
    (locs : list (nat + nat)) (c : string) (k : nat) :
  Forall2 (λ c loc, locate df c = Ok loc) cols locs →
  locate df c = Ok (inl k) → c ∈ cols →
  ∃ k', index_of c (filter (λ c, is_numeric df c = true) cols) = Some k' ∧
        num_indices locs !! k' = Some k.
Proof.
  intros Hall Hc. induction Hall as [|c0 loc0 cols locs H0 Hall IH]; intros Hin.
  { by apply elem_of_nil in Hin. }
  rewrite filter_cons. unfold num_indices. cbn [omap list_omap].
  destruct loc0 as [k0|k0].
  - rewrite (is_numeric_inl _ _ H0), decide_True by done.
    rewrite index_of_cons. destruct (decide (c0 = c)) as [->|Hne].
    + exists 0. split; [done|]. csimpl. congruence.
    + apply elem_of_cons in Hin as [?|Hin]; [congruence|].
      destruct (IH Hin) as (k' & -> & Hk'). exists (S k'). by split.
  - rewrite (is_numeric_inr _ _ H0), decide_False by done.
    apply elem_of_cons in Hin as [?|Hin]; [congruence|]. by apply IH.
Qed.

Lemma project_obj (cols : list string)
    (locs : list (nat + nat)) (c : string) (k : nat) :
  Forall2 (λ c loc, locate df c = Ok loc) cols locs →
  locate df c = Ok (inr k) → c ∈ cols →
  ∃ k', index_of c (filter (λ c, is_numeric df c = false) cols) = Some k' ∧
        obj_indices locs !! k' = Some k.
Proof.
  intros Hall Hc. induction Hall as [|c0 loc0 cols locs H0 Hall IH]; intros Hin.
  { by apply elem_of_nil in Hin. }
  rewrite filter_cons. unfold obj_indices. cbn [omap list_omap].
  destruct loc0 as [k0|k0].
  - rewrite (is_numeric_inl _ _ H0), decide_False by done.
    apply elem_of_cons in Hin as [?|Hin]; [congruence|]. by apply IH.
  - rewrite (is_numeric_inr _ _ H0), decide_True by done.
    rewrite index_of_cons. destruct (decide (c0 = c)) as [->|Hne].
    + exists 0. split; [done|]. csimpl. congruence.
    + apply elem_of_cons in Hin as [?|Hin]; [congruence|].
      destruct (IH Hin) as (k' & -> & Hk'). exists (S k'). by split.
Qed.

(** [df[cols][c]] is [df[c]] for a selected column. *)
Lemma locate_project (P : DataFrame) (cols : list string)
    (locs : list (nat + nat)) (c : string) (loc : nat + nat) :
  Forall2 (λ c loc, locate df c = Ok loc) cols locs →
  P = {| num_columns := filter (λ c, is_numeric df c = true) cols;
         obj_columns := filter (λ c, is_numeric df c = false) cols;
         rows := project_row locs <$> rows df |} →
  locate df c = Ok loc → c ∈ cols →
  match loc with
  | inl k => ∃ k', locate P c = Ok (inl k') ∧
                   ∀ r, num_cell k' (project_row locs r) = num_cell k r
  | inr k => ∃ k', locate P c = Ok (inr k') ∧
                   ∀ r, obj_cell k' (project_row locs r) = obj_cell k r
  end.
Proof.
  intros Hall -> Hloc Hin. destruct loc as [k|k].
  - destruct (project_num cols locs c k Hall Hloc Hin) as (k' & Hk' & Hidx).
    exists k'. split.
    + unfold locate. cbn [num_columns]. by rewrite Hk'.
    + intros r. unfold num_cell at 1, project_row. cbn [nums].
      by rewrite list_lookup_fmap, Hidx.
  - destruct (project_obj cols locs c k Hall Hloc Hin) as (k' & Hk' & Hidx).
    exists k'. split.
    + unfold locate. cbn [num_columns obj_columns].
      rewrite index_of_None, Hk'; [done|].
      rewrite list_elem_of_filter, (is_numeric_inr _ _ Hloc). by intros [[=] _].
    + intros r. unfold obj_cell at 1, project_row. cbn [objs].
      by rewrite list_lookup_fmap, Hidx.
Qed.

Lemma getitem_project (P : DataFrame) (cols : list string) (c : string) :
  getitem_list df cols = Ok P → c ∈ cols → getitem P c = getitem df c.
Proof.
  intros (locs & Hall & HP)%getitem_list_Ok Hin.
  assert (∃ loc, locate df c = Ok loc) as [loc Hloc].
  { apply list_elem_of_lookup in Hin as [i Hi].
    destruct (Forall2_lookup_l _ _ _ _ _ Hall Hi) as (loc & _ & Hloc). eauto. }
  pose proof (locate_project P cols locs c loc Hall HP Hloc Hin) as H.
  rewrite !getitem_locate, Hloc. csimpl.
  destruct loc as [k|k]; destruct H as (k' & -> & Hcell); csimpl;
    do 2 f_equal; subst P; cbn [rows]; rewrite <- list_fmap_compose.
  all: apply list_fmap_ext; intros i r _; apply Hcell.
Qed.

End Projection.

Lemma getitem_with_rows (d : DataFrame) (rs : list Row) (c : string) :
  getitem (with_rows d rs) c =
    loc ← locate d c;
    Ok (match loc with
        | inl k => FloatSeries (num_cell k <$> rs)
        | inr k => ObjectSeries (obj_cell k <$> rs)
        end).
Proof. by rewrite getitem_locate, (locate_sub_frame _ d). Qed.

Lemma dropna_with_rows (d : DataFrame) :
  dropna d = with_rows d (filter (λ r, row_complete r = true) (rows d)).
Proof. reflexivity. Qed.

(** ** The single box *)

Lemma getitem_list_single (df : DataFrame) (c : string) (loc : nat + nat) :
  locate df c = Ok loc →
  getitem_list df [c] =
    Ok {| num_columns := filter (λ c, is_numeric df c = true) [c];
          obj_columns := filter (λ c, is_numeric df c = false) [c];
          rows := project_row [loc] <$> rows df |}.
Proof. intros H. unfold getitem_list. rewrite mapM_cons, H. reflexivity. Qed.

(** C2: without a group column and with the mean switched on,
    [create_boxplot] reads [group_data], which is bound only in the
    grouped branches: instead of adding the mean marker of the value
    column it raises. *)
Theorem single_box_mean_raises
    (df : DataFrame) (y_column color_column : string) (show_points : bool)
    (ys : list float) :
  getitem df y_column = Ok (FloatSeries ys) →
  finite_values ys ≠ [] →
  create_boxplot df y_column NONE color_column show_points true
    = Raise UnboundLocalError.
Proof.
  intros Hg Hne.
  destruct (getitem_FloatSeries _ _ _ Hg) as (k & Hloc & Hys).
  pose proof (getitem_list_single df y_column _ Hloc) as HP.
  set (P := {| num_columns := filter (λ c, is_numeric df c = true) [y_column];
               obj_columns := filter (λ c, is_numeric df c = false) [y_column];
               rows := project_row [inl k] <$> rows df |}) in HP.
  assert (getitem P y_column = Ok (FloatSeries ys)) as HgP.
  { rewrite (getitem_project df P [y_column]); [done..|]. by left. }
  destruct (getitem_FloatSeries _ _ _ HgP) as (k' & HlocP & _).
  unfold create_boxplot, plot_frame.
  rewrite (bool_decide_eq_false_2 (NONE ≠ NONE ∧ _)) by (intros [H _]; by apply H).
  rewrite (bool_decide_eq_false_2 (NONE ≠ NONE)) by (intros H; by apply H).
  rewrite HP. cbn [fmap result_fmap mbind result_bind].
  assert (empty (dropna P) = false) as ->.
  { destruct (finite_values ys) as [|q qs] eqn:Hfin; [done|].
    assert (q ∈ finite_values ys) as Hq by (rewrite Hfin; by left).
    apply elem_of_finite_values in Hq. rewrite Hys in Hq.
    apply list_elem_of_fmap in Hq as (r & Hr & Hin).
    assert (project_row [inl k] r ∈ rows (dropna P)) as Hrow.
    { cbn [dropna rows]. apply list_elem_of_filter. split.
      - unfold row_complete, project_row. cbn. by rewrite <- Hr.
      - subst P. cbn [rows]. apply list_elem_of_fmap. eauto. }
    unfold empty. destruct (rows (dropna P)); [by apply elem_of_nil in Hrow|done]. }
  rewrite bool_decide_eq_true_2 by done.
  unfold single_box. rewrite dropna_with_rows, getitem_with_rows, HlocP.
  reflexivity.
Qed.

Lemma single_box_mean_raises_witness :
  create_boxplot scenario_A "v" NONE NONE true true = Raise UnboundLocalError.
Proof.
  apply (single_box_mean_raises scenario_A "v" NONE true [n 1; n 2; n 100]).
  - reflexivity.
  - simpl. discriminate.
Defined.

(** With the mean switched off the same call draws the box and the
    points. *)
Example single_box_without_mean :
  ∃ fig, create_boxplot scenario_A "v" NONE NONE true false
           = Ok (plotly_chart fig "v 분포") ∧
         trace_kind <$> fig = [Box; Scatter].
Proof. eexists. split; reflexivity. Qed.

(** ** The color palette *)





Lemma cell_points_scatter (color_data : DataFrame)
    (x_column y_column color_group color group : string) (ts : list Trace) :
  cell_points color_data x_column y_column color_group color group = Ok ts →
  Forall (λ t, trace_kind t = Scatter) ts.
Proof.
  unfold cell_points. intros H.
  apply bind_Ok in H as (cell & _ & H).
  apply bind_Ok in H as (ys & _ & H).
  destruct (bool_decide (length ys = 0)); [injection H as <-; constructor|].
  injection H as <-. apply Forall_app. split; case_bool_decide; by repeat constructor.
Qed.

Lemma concat_mapM_Forall {A B} (f : A → result (list B)) (P : B → Prop)
    (l : list A) (k : list B) :
  (∀ x ts, f x = Ok ts → Forall P ts) →
  concat_mapM f l = Ok k → Forall P k.
Proof.
  intros Hf H. unfold concat_mapM in H.
  apply bind_Ok in H as (tss & Htss & H). injection H as <-.
  apply mapM_Ok_Forall2 in Htss.
  induction Htss as [|x ts l tss Hx _ IH]; [constructor|].
  cbn [concat]. apply Forall_app. split; [by eapply Hf|done].
Qed.




(** With 46 color values every color group has its own palette entry. *)
Example palette_46_colors :
  ∃ fig title, create_boxplot (many_colors 46) "v" "g" "c" false false
                 = Ok (plotly_chart fig title) ∧
               trace_color <$> fig = EXTENDED_COLORS.
Proof. eexists _, _. split; vm_compute; reflexivity. Qed.

(** ** Group keys of the statistics and of the plot *)





Lemma filter_length_all {A} (P : A → Prop) `{!∀ x, Decision (P x)} (l : list A) :
  length (filter P l) = length l → filter P l = l.
Proof.
  induction l as [|x l IH]; [done|]. rewrite filter_cons.
  destruct (decide (P x)); cbn [length]; intros Hlen.
  - f_equal. apply IH. lia.
  - pose proof (length_filter P l). lia.
Qed.





(** Scenario A of the test plan: group X has two rows with mean 1.5,
    group Y one row with mean 100. *)
Example scenario_A_statistics :
  show_statistics scenario_A "v" "g" = Ok scenario_A_stats ∧
  count (describe [n 1; n 2]) = 2 ∧
  feq (mean (describe [n 1; n 2])) (Fin (3 # 2)) = true ∧
  count (describe [n 100]) = 1 ∧
  feq (mean (describe [n 100])) (n 100) = true.
Proof. repeat split; reflexivity. Qed.


(** ** Scenarios of the test plan *)

(** The domain of a new filter comes from the narrowed frame: with only
    group Y selected, the bounds of a filter on [v] are those of the
    rows of group Y, not those of the whole column. *)
Example cascaded_domain_not_raw :
  add_new_filter scenario_A "v" state_Y
    = Ok (append_filter state_Y (numeric "v" (n 100) (n 100) (n 100, n 100))) ∧
  getitem scenario_A "v" = Ok (FloatSeries [n 1; n 2; n 100]) ∧
  nanmin [n 1; n 2; n 100] = n 1.
Proof. repeat split; reflexivity. Qed.

(** Scenario B: only the row of group Y passes the filter that selects
    Y. *)
Example scenario_B :
  apply_filters_to_data scenario_A [filter_Y]
    = Ok (with_rows scenario_A [mkRow [n 100] [Some "Y"]]).
Proof. reflexivity. Qed.


(** Scenario E: removing the filter on [g] leaves the bounds of the
    filter on [v] as they were taken when it was created. *)
Example scenario_E :
  ∃ st', remove_filter 0 state_E = Ok st' ∧
         domain <$> active_filters st' = [inr (n 100, n 100)] ∧
         apply_filters_to_data scenario_A (active_filters st')
           = Ok (with_rows scenario_A [mkRow [n 100] [Some "Y"]]).
Proof. eexists. repeat split; reflexivity. Qed.

(** ** The filter chain, row by row *)

Lemma with_rows_columns (d d' : DataFrame) (rs : list Row) :
  num_columns d = num_columns d' → obj_columns d = obj_columns d' →
  with_rows d rs = with_rows d' rs.
Proof. unfold with_rows. by intros -> ->. Qed.

(** Applying one filter to a one-row frame keeps the row exactly when
    the row passes the filter. *)
Lemma one_row_passes (df : DataFrame) (r : Row) (f : FilterInfo) :
  filter_step (one_row df r) f = Ok (one_row df r) ↔ passes df r f = true.
Proof.
  unfold passes, one_row. rewrite filter_step_Ok.
  rewrite (row_test_sub_frame (with_rows df [r]) df) by done. split.
  - intros (t & -> & _ & Heq). apply bool_decide_eq_true.
    cbn [rows with_rows] in Heq. rewrite filter_cons in Heq.
    destruct (decide (t r = Ok true)) as [Ht|Ht]; [done|].
    unfold with_rows in Heq. by injection Heq.
  - destruct (row_test df f) as [t|e]; [|done].
    intros Ht%bool_decide_eq_true. exists t. split; [done|].
    cbn [rows with_rows]. split; [constructor; [eauto|constructor]|].
    rewrite filter_cons, decide_True by done. done.
Qed.

Lemma forallb_elem_of {A} (p : A → bool) (l : list A) :
  forallb p l = true ↔ ∀ x, x ∈ l → p x = true.
Proof.
  rewrite forallb_forall. split; intros H x Hx; apply H; by apply list_elem_of_In.
Qed.

(** The rows of the result are the rows that pass every filter. *)
Lemma apply_filters_rows (df d : DataFrame) (F : list FilterInfo) :
  apply_filters_to_data df F = Ok d →
  d = with_rows df (filter (λ r, forallb (passes df r) F = true) (rows df)).
Proof.
  revert df. induction F as [|f F IH]; intros df H.
  - injection H as <-. cbn [forallb]. rewrite filter_all; [by rewrite with_rows_id|].
    by apply Forall_forall.
  - cbn [apply_filters_to_data] in H. apply bind_Ok in H as (d1 & H1 & H).
    pose proof H1 as Hsub. apply filter_step_sub_frame in Hsub as (Hn & Ho & _).
    apply filter_step_Ok in H1 as (t & Ht & _ & ->).
    apply IH in H. rewrite H. cbn [rows with_rows num_columns obj_columns].
    unfold with_rows. cbn [num_columns obj_columns]. f_equal.
    rewrite list_filter_filter. apply list_filter_iff. intros r.
    cbn [forallb]. rewrite andb_true_iff.
    assert (passes df r f = true ↔ t r = Ok true) as ->.
    { unfold passes. rewrite Ht. apply bool_decide_eq_true. }
    assert (∀ g, passes (with_rows df (filter (λ r0, t r0 = Ok true) (rows df))) r g
                 = passes df r g) as Hp.
    { intros g. unfold passes. by rewrite (row_test_sub_frame _ df). }
    rewrite !forallb_elem_of. setoid_rewrite Hp. tauto.
Qed.

(** X1: a chain that applies without error keeps a row exactly when the
    row is a row of the frame and passes every filter of the chain on
    its own: the filters are combined by conjunction. *)
Theorem apply_filters_rowwise (df d : DataFrame) (F : list FilterInfo) :
  apply_filters_to_data df F = Ok d →
  ∀ r, r ∈ rows d ↔
       r ∈ rows df ∧
       ∀ f, f ∈ F → filter_step (one_row df r) f = Ok (one_row df r).
Proof.
  intros H r. rewrite (apply_filters_rows df d F H). cbn [rows with_rows].
  rewrite list_elem_of_filter, forallb_elem_of.
  split.
  - intros [H1 H2]. split; [done|]. intros f Hf. apply one_row_passes; auto.
  - intros [H1 H2]. split; [|done]. intros f Hf. apply one_row_passes; auto.
Qed.

Lemma apply_filters_rowwise_witness :
  mkRow [n 100] [Some "Y"] ∈ rows (with_rows scenario_A [mkRow [n 100] [Some "Y"]]) ↔
  mkRow [n 100] [Some "Y"] ∈ rows scenario_A ∧
  ∀ f, f ∈ [filter_Y; numeric "v" (n 2) (n 100) (n 2, n 100)] →
       filter_step (one_row scenario_A (mkRow [n 100] [Some "Y"])) f
       = Ok (one_row scenario_A (mkRow [n 100] [Some "Y"])).
Proof.
  apply (apply_filters_rowwise scenario_A
           (with_rows scenario_A [mkRow [n 100] [Some "Y"]])
           [filter_Y; numeric "v" (n 2) (n 100) (n 2, n 100)]).
  reflexivity.
Defined.

Lemma filter_sublist_impl {A} (P Q : A → Prop) `{!∀ x, Decision (P x)}
    `{!∀ x, Decision (Q x)} (l : list A) :
  (∀ x, x ∈ l → P x → Q x) → filter P l `sublist_of` filter Q l.
Proof.
  induction l as [|x l IH]; intros HPQ; [done|].
  rewrite !filter_cons.
  assert (filter P l `sublist_of` filter Q l) as IH'.
  { apply IH. intros y Hy. apply HPQ. by right. }
  destruct (decide (P x)) as [HP|HP].
  - rewrite decide_True by (apply HPQ; [left|done]). by constructor.
  - destruct (decide (Q x)); [by constructor|done].
Qed.

Lemma forallb_passes_perm (df : DataFrame) (r : Row) (F F' : list FilterInfo) :
  F ≡ₚ F' → forallb (passes df r) F = forallb (passes df r) F'.
Proof.
  intros HP. apply eq_true_iff_eq. rewrite !forallb_elem_of.
  by setoid_rewrite HP.
Qed.

(** X2: the order of the filters does not matter for the rows that are
    kept: two chains with the same filters in another order, both
    applied without error, return the same frame. *)
Theorem apply_filters_order_independent (df d d' : DataFrame)
    (F F' : list FilterInfo) :
  F ≡ₚ F' →
  apply_filters_to_data df F = Ok d →
  apply_filters_to_data df F' = Ok d' →
  d = d'.
Proof.
  intros HP H H'. rewrite (apply_filters_rows _ _ _ H), (apply_filters_rows _ _ _ H').
  f_equal. apply filter_ext_in. intros r _.
  by rewrite (forallb_passes_perm df r F F').
Qed.

Lemma apply_filters_order_independent_witness :
  with_rows scenario_A [mkRow [n 100] [Some "Y"]]
  = with_rows scenario_A [mkRow [n 100] [Some "Y"]].
Proof.
  apply (apply_filters_order_independent scenario_A _ _
           [filter_Y; numeric "v" (n 2) (n 100) (n 2, n 100)]
           [numeric "v" (n 2) (n 100) (n 2, n 100); filter_Y]).
  - apply perm_swap.
  - reflexivity.
  - reflexivity.
Defined.

(** Whether an error is raised does depend on the order: a numeric
    filter on a text column raises on the full frame and passes once an
    earlier filter has removed every row. *)
Example order_matters_for_errors :
  apply_filters_to_data scenario_A
    [categorical "g" ["X"; "Y"] []; numeric "g" (n 0) (n 1) (n 0, n 1)]
  = Ok (iloc_empty scenario_A) ∧
  apply_filters_to_data scenario_A
    [numeric "g" (n 0) (n 1) (n 0, n 1); categorical "g" ["X"; "Y"] []]
  = Raise TypeError.
Proof. split; reflexivity. Qed.

(** X3: a chain with fewer filters keeps more: when every filter of [F']
    is a filter of [F] and both chains apply without error, the rows
    kept by [F] are rows kept by [F'], in the same order. *)
Theorem fewer_filters_keep_more (df d d' : DataFrame) (F F' : list FilterInfo) :
  F' ⊆ F →
  apply_filters_to_data df F = Ok d →
  apply_filters_to_data df F' = Ok d' →
  rows d `sublist_of` rows d'.
Proof.
  intros Hsub H H'.
  rewrite (apply_filters_rows _ _ _ H), (apply_filters_rows _ _ _ H').
  cbn [rows with_rows]. apply filter_sublist_impl. intros r _.
  rewrite !forallb_elem_of. intros Hall f Hf. apply Hall, Hsub, Hf.
Qed.

Lemma fewer_filters_keep_more_witness :
  rows (with_rows scenario_A [mkRow [n 100] [Some "Y"]])
  `sublist_of`
  rows (with_rows scenario_A [mkRow [n 2] [Some "X"]; mkRow [n 100] [Some "Y"]]).
Proof.
  apply (fewer_filters_keep_more scenario_A _ _
           [filter_Y; numeric "v" (n 2) (n 100) (n 2, n 100)]
           [numeric "v" (n 2) (n 100) (n 2, n 100)]).
  - intros f Hf. apply list_elem_of_singleton in Hf as ->. right. left.
  - reflexivity.
  - reflexivity.
Defined.

Lemma filter_sublist {A} (P : A → Prop) `{!∀ x, Decision (P x)} (l : list A) :
  filter P l `sublist_of` l.
Proof.
  induction l as [|x l IH]; [done|]. rewrite filter_cons.
  destruct (decide (P x)); by constructor.
Qed.

(** X4: filtering never changes the columns, and never reorders,
    repeats or alters rows: the rows of the result are the rows of the
    frame with some of them left out. *)
Theorem apply_filters_keeps_order (df d : DataFrame) (F : list FilterInfo) :
  apply_filters_to_data df F = Ok d →
  num_columns d = num_columns df ∧ obj_columns d = obj_columns df ∧
  rows d `sublist_of` rows df.
Proof.
  intros H. rewrite (apply_filters_rows _ _ _ H). cbn [with_rows num_columns obj_columns rows].
  repeat split. apply filter_sublist.
Qed.

Lemma apply_filters_keeps_order_witness :
  num_columns (with_rows scenario_A [mkRow [n 100] [Some "Y"]]) = num_columns scenario_A ∧
  obj_columns (with_rows scenario_A [mkRow [n 100] [Some "Y"]]) = obj_columns scenario_A ∧
  rows (with_rows scenario_A [mkRow [n 100] [Some "Y"]]) `sublist_of` rows scenario_A.
Proof.
  apply (apply_filters_keeps_order scenario_A _ [filter_Y]). reflexivity.
Defined.

(** X5: the difference that [display_data_info] shows for the filtered
    frame is never positive, and it is zero exactly when the filters
    have kept the whole frame. *)
Theorem display_data_info_delta (df d : DataFrame) (F : list FilterInfo) :
  apply_filters_to_data df F = Ok d →
  (delta (display_data_info df d) ≤ 0)%Z ∧
  (delta (display_data_info df d) = 0%Z ↔ d = df).
Proof.
  intros H. rewrite (apply_filters_rows _ _ _ H).
  unfold display_data_info. cbn [delta rows with_rows].
  pose proof (length_filter (λ r, forallb (passes df r) F = true) (rows df)) as Hle.
  split; [lia|]. split.
  - intros Hz. rewrite filter_length_all by lia. apply with_rows_id.
  - intros Heq. apply (f_equal rows) in Heq. cbn [rows with_rows] in Heq.
    rewrite Heq. lia.
Qed.

Lemma display_data_info_delta_witness :
  (delta (display_data_info scenario_A
            (with_rows scenario_A [mkRow [n 100] [Some "Y"]])) ≤ 0)%Z ∧
  (delta (display_data_info scenario_A
            (with_rows scenario_A [mkRow [n 100] [Some "Y"]])) = 0%Z
   ↔ with_rows scenario_A [mkRow [n 100] [Some "Y"]] = scenario_A).
Proof.
  apply (display_data_info_delta scenario_A _ [filter_Y]). reflexivity.
Defined.

(** ** Filters on columns of another kind, or on no column *)

Lemma index_of_None_iff (c : string) (l : list string) :
  index_of c l = None ↔ c ∉ l.
Proof.
  split; [|apply index_of_None].
  intros HN Hin. apply index_of_elem_of in Hin as [k Hk]. congruence.
Qed.

Lemma locate_missing (df : DataFrame) (c : string) :
  locate df c = Raise KeyError ↔ c ∉ num_columns df ++ obj_columns df.
Proof.
  unfold locate. rewrite not_elem_of_app, <- !index_of_None_iff.
  destruct (index_of c (num_columns df)); [split; [done|by intros [? _]]|].
  destruct (index_of c (obj_columns df)); [split; [done|by intros [_ ?]]|].
  done.
Qed.

Lemma locate_columns (d d' : DataFrame) (c : string) :
  num_columns d = num_columns d' → obj_columns d = obj_columns d' →
  locate d c = locate d' c.
Proof. unfold locate. by intros -> ->. Qed.

Lemma getitem_missing (df : DataFrame) (c : string) :
  locate df c = Raise KeyError → getitem df c = Raise KeyError.
Proof. intros H. by rewrite getitem_locate, H. Qed.

(** X6: a filter on a column that the frame does not have raises
    [KeyError] wherever it stands in the chain, also when the filters
    before it have left no rows; only a categorical filter with nothing
    selected does not read its column. *)
Theorem filter_on_missing_column (df d1 : DataFrame) (f : FilterInfo)
    (F1 F2 : list FilterInfo) :
  filter_column f ∉ num_columns df ++ obj_columns df →
  (∀ column all_values, f ≠ categorical column all_values []) →
  apply_filters_to_data df F1 = Ok d1 →
  apply_filters_to_data df (F1 ++ f :: F2) = Raise KeyError.
Proof.
  intros Hc Hsel H1. rewrite apply_filters_app, H1.
  cbn [mbind result_bind apply_filters_to_data].
  apply apply_filters_sub_frame in H1 as (Hn & Ho & _).
  assert (getitem d1 (filter_column f) = Raise KeyError) as Hg.
  { apply getitem_missing. rewrite (locate_columns d1 df) by done.
    by apply locate_missing. }
  destruct f as [c a [|v s]|c lo hi rng]; cbn [filter_column] in Hg.
  - by destruct (Hsel c a).
  - cbn [filter_step]. by rewrite Hg.
  - cbn [filter_step]. by rewrite Hg.
Qed.

Lemma filter_on_missing_column_witness :
  apply_filters_to_data scenario_A
    ([categorical "g" ["X"; "Y"] []] ++ numeric "w" (n 0) (n 1) (n 0, n 1) :: [filter_Y])
  = Raise KeyError.
Proof.
  apply (filter_on_missing_column scenario_A (iloc_empty scenario_A)).
  - cbn. rewrite !elem_of_cons, elem_of_nil. intros [?|[?|[]]]; discriminate.
  - intros column all_values. discriminate.
  - reflexivity.
Defined.



(** X8: a categorical filter on a numeric column raises nothing and
    keeps no row, whatever is selected: no number is among the selected
    texts. *)
Theorem categorical_filter_on_numeric_column (df : DataFrame) (column : string)
    (k : nat) (all_values selected_values : list string) :
  locate df column = Ok (inl k) →
  filter_step df (categorical column all_values selected_values) =
    Ok (iloc_empty df).
Proof.
  intros Hloc. rewrite filter_step_rows.
  destruct selected_values as [|v s]; cbn [row_test].
  - cbn [mbind result_bind]. by rewrite filterM_false.
  - rewrite Hloc. cbn [mbind result_bind]. by rewrite filterM_false.
Qed.

Lemma categorical_filter_on_numeric_column_witness :
  filter_step scenario_A (categorical "v" ["1"; "2"] ["1"]) =
    Ok (iloc_empty scenario_A).
Proof.
  apply (categorical_filter_on_numeric_column scenario_A "v" 0). reflexivity.
Defined.

(** ** Adding a filter *)

Lemma locate_raises (df : DataFrame) (c : string) (e : exn) :
  locate df c = Raise e → e = KeyError.
Proof.
  unfold locate. destruct (index_of c (num_columns df)); [done|].
  destruct (index_of c (obj_columns df)); [done|]. congruence.
Qed.

(** What [add_new_filter] does once the chain has been applied: the
    filter depends on the kind and the cells of the column in the
    filtered frame. *)
Lemma add_new_filter_located (df d : DataFrame) (column : string)
    (st : SessionState) (loc : nat + nat) :
  apply_current_filters st df = Ok d →
  locate df column = Ok loc →
  add_new_filter df column st =
    Ok (append_filter st
          match loc with
          | inl k =>
              let xs := num_cell k <$> rows d in
              numeric column (nanmin xs) (nanmax xs) (nanmin xs, nanmax xs)
          | inr k =>
              let u := sorted (unique (dropna_obj (obj_cell k <$> rows d))) in
              categorical column u u
          end).
Proof.
  intros Hd Hloc. unfold add_new_filter. rewrite Hd. cbn [mbind result_bind].
  rewrite apply_current_filters_eq in Hd.
  apply apply_filters_sub_frame in Hd as (Hn & Ho & _).
  rewrite !getitem_locate, Hloc, (locate_sub_frame d df), Hloc by done.
  by destruct loc.
Qed.


Lemma obj_isin_domain (xs : list (option string)) (o : option string) :
  o ∈ xs →
  obj_isin (sorted (unique (dropna_obj xs))) o = bool_decide (is_Some o).
Proof.
  intros Ho. destruct o as [v|]; cbn [obj_isin].
  - rewrite bool_decide_eq_true_2, bool_decide_eq_true_2; [done|eauto|].
    by apply elem_of_sorted, elem_of_unique, elem_of_dropna_obj.
  - symmetry. apply bool_decide_eq_false_2. by intros [? ?].
Qed.

Lemma list_fmap_ext_in {A B} (f g : A → B) (l : list A) :
  (∀ x, x ∈ l → f x = g x) → f <$> l = g <$> l.
Proof.
  intros H. apply list_eq. intros i. rewrite !list_lookup_fmap.
  destruct (l !! i) as [x|] eqn:Hx; [|done]. cbn. f_equal.
  apply H. by eapply list_elem_of_lookup_2.
Qed.

(** The filter that [add_new_filter] builds from a frame keeps the rows
    of that frame that have a value in the column. *)
Lemma fresh_filter_step (d : DataFrame) (column : string) (loc : nat + nat) :
  locate d column = Ok loc →
  filter_step d
    match loc with
    | inl k =>
        let xs := num_cell k <$> rows d in
        numeric column (nanmin xs) (nanmax xs) (nanmin xs, nanmax xs)
    | inr k =>
        let u := sorted (unique (dropna_obj (obj_cell k <$> rows d))) in
        categorical column u u
    end
  = notna_rows d column.
Proof.
  intros Hloc. unfold notna_rows. rewrite getitem_locate, Hloc.
  cbn [mbind result_bind]. destruct loc as [k|k]; cbn zeta.
  - cbn [filter_step]. rewrite getitem_locate, Hloc. cbn [mbind result_bind series_ge series_le fst snd series_notna].
    rewrite mask_and_fmap. do 2 f_equal.
    apply list_fmap_ext_in. intros x Hx. by apply full_range_test.
  - cbn [series_notna].
    assert (obj_isin (sorted (unique (dropna_obj (obj_cell k <$> rows d))))
              <$> (obj_cell k <$> rows d)
            = (λ o, bool_decide (is_Some o)) <$> (obj_cell k <$> rows d)) as Hmask.
    { apply list_fmap_ext_in. intros o Ho. by apply obj_isin_domain. }
    destruct (sorted (unique (dropna_obj (obj_cell k <$> rows d)))) as [|v u] eqn:Hu;
      cbn [filter_step].
    + f_equal. unfold iloc_empty, getitem_mask. f_equal.
      rewrite <- Hmask. cbn [obj_isin].
      rewrite <- list_fmap_compose. symmetry.
      erewrite list_fmap_ext_in; [apply select_all_false|].
      intros r _. cbn. destruct (obj_cell k r); [|done].
      apply bool_decide_eq_false_2, not_elem_of_nil.
    + rewrite getitem_locate, Hloc. cbn [mbind result_bind series_isin].
      by rewrite Hmask.
Qed.

(** X10: a filter that has just been added is neutral up to missing
    values: the chain with the new filter keeps the rows that the chain
    kept before and that have a value in the column of the new filter. *)
Theorem fresh_filter_keeps_values (df : DataFrame) (column : string)
    (st st' : SessionState) :
  add_new_filter df column st = Ok st' →
  apply_filters_to_data df (active_filters st') =
    apply_filters_to_data df (active_filters st) ≫= λ d, notna_rows d column.
Proof.
  intros Hadd.
  destruct (apply_current_filters st df) as [d|e] eqn:Hd;
    [|unfold add_new_filter in Hadd; by rewrite Hd in Hadd].
  destruct (locate df column) as [loc|e] eqn:Hloc.
  - rewrite (add_new_filter_located df d column st loc) in Hadd by done.
    injection Hadd as <-. cbn [append_filter set_active_filters active_filters].
    rewrite apply_filters_app. rewrite apply_current_filters_eq in Hd.
    rewrite Hd. cbn [mbind result_bind]. rewrite apply_filters_single.
    apply apply_filters_sub_frame in Hd as (Hn & Ho & _).
    rewrite <- (locate_sub_frame d df) in Hloc by done.
    by apply fresh_filter_step.
  - unfold add_new_filter in Hadd. rewrite Hd in Hadd. cbn [mbind result_bind] in Hadd.
    pose proof (locate_raises _ _ _ Hloc) as ->.
    by rewrite (getitem_missing df column Hloc) in Hadd.
Qed.

Lemma fresh_filter_keeps_values_witness :
  apply_filters_to_data frame_missing
    (active_filters
       (append_filter (set_active_filters state0 [])
          (numeric "v" (n 1) (n 3) (n 1, n 3)))) =
    apply_filters_to_data frame_missing [] ≫= λ d, notna_rows d "v".
Proof.
  apply (fresh_filter_keeps_values frame_missing "v" (set_active_filters state0 [])).
  reflexivity.
Defined.

(** ** The session state *)

(** X11: with a numeric column the initialisation does not fail, and a
    state that it has produced is left as it is by every later
    initialisation, whatever the columns of the later frame: a stored
    key is never overwritten. *)
Theorem initialize_session_state_once
    (numeric_columns categorical_columns numeric_columns' categorical_columns'
       : list string) (s : StoredState) :
  numeric_columns ≠ [] →
  ∃ st, initialize_session_state numeric_columns categorical_columns s = Ok st ∧
        initialize_session_state numeric_columns' categorical_columns' (stored st)
        = Ok st.
Proof.
  intros Hnc. unfold initialize_session_state.
  destruct (graph_y_column_key s) as [y|]; cbn [mbind result_bind].
  - eexists. split; [done|]. done.
  - destruct numeric_columns as [|y nc]; [done|]. cbn [mbind result_bind].
    eexists. split; [done|]. done.
Qed.

Lemma initialize_session_state_once_witness :
  ∃ st, initialize_session_state ["v"] ["g"] new_session = Ok st ∧
        initialize_session_state [] [] (stored st) = Ok st.
Proof.
  apply (initialize_session_state_once ["v"] ["g"] [] [] new_session). done.
Defined.

Lemma index_of_lookup (c : string) (l : list string) (k : nat) :
  index_of c l = Some k → l !! k = Some c.
Proof.
  unfold index_of. intros H. apply fmap_Some in H as ([k' x] & Hf & ->).
  apply list_find_Some in Hf as (Hl & -> & _). done.
Qed.

(** X12: the index that a select box gets always points at the stored
    value when that value is one of the options, and at the first
    option otherwise (a stored value that the frame no longer offers);
    it is never out of range. *)
Theorem current_index_option (options : list string) (value : string) :
  options !! current_index options value =
    if bool_decide (value ∈ options) then Some value else head options.
Proof.
  unfold current_index.
  destruct (bool_decide (value ∈ options)) eqn:Hin.
  - apply bool_decide_eq_true in Hin. apply index_of_elem_of in Hin as [k Hk].
    rewrite Hk. cbn [default]. by apply index_of_lookup.
  - by destruct options.
Qed.

(** An assignment that is made only when the value differs is an
    assignment. *)
Lemma assign_if_changed {A} `{EqDecision A} (get : SessionState → A)
    (set : SessionState → A → SessionState) (st : SessionState) (v : A) :
  set st (get st) = st →
  (if bool_decide (v ≠ get st) then set st v else st) = set st v.
Proof.
  intros Hset. case_bool_decide as Hv; [done|].
  destruct (decide (v = get st)) as [->|]; [done|contradiction].
Qed.

(** What the five conditional assignments of [setup_graph_controls]
    amount to *)
Lemma setup_graph_controls_state (numeric_columns categorical_columns : list string)
    (w : GraphWidgets) (st : SessionState) :
  setup_graph_controls numeric_columns categorical_columns w st =
    {| graph_y_column := y_column_selector w;
       graph_x_column := match categorical_columns with
                         | [] => graph_x_column st
                         | _ :: _ => x_column_selector w
                         end;
       graph_color_column := color_column_selector w;
       graph_show_points := show_points_selector w;
       graph_show_mean := show_mean_selector w;
       active_filters := active_filters st;
       filter_counter := filter_counter st |}.
Proof.
  unfold setup_graph_controls. cbn zeta.
  rewrite (assign_if_changed graph_y_column set_graph_y_column) by by destruct st.
  assert (match categorical_columns with
          | [] => set_graph_y_column st (y_column_selector w)
          | _ :: _ =>
              if bool_decide (x_column_selector w
                              ≠ graph_x_column (set_graph_y_column st (y_column_selector w)))
              then set_graph_x_column (set_graph_y_column st (y_column_selector w))
                     (x_column_selector w)
              else set_graph_y_column st (y_column_selector w)
          end
          = set_graph_x_column (set_graph_y_column st (y_column_selector w))
              match categorical_columns with
              | [] => graph_x_column st
              | _ :: _ => x_column_selector w
              end) as ->.
  { destruct categorical_columns; [done|].
    by rewrite (assign_if_changed graph_x_column set_graph_x_column). }
  rewrite (assign_if_changed graph_color_column set_graph_color_column) by done.
  rewrite (assign_if_changed graph_show_points set_graph_show_points) by done.
  rewrite (assign_if_changed graph_show_mean set_graph_show_mean) by done.
  done.
Qed.

(** X13: after [setup_graph_controls] the value column is a numeric
    column of the frame and the color column is an option of its select
    box, whatever the state held before; the group column is an option
    of its select box when the frame has a text column, and it is left
    as stored when the frame has none.  The filters are not touched. *)
Theorem setup_graph_controls_selection
    (numeric_columns categorical_columns : list string)
    (w : GraphWidgets) (st : SessionState) :
  y_column_selector w ∈ numeric_columns →
  x_column_selector w ∈ NONE :: categorical_columns →
  color_column_selector w ∈ NONE :: categorical_columns →
  graph_y_column (setup_graph_controls numeric_columns categorical_columns w st)
    ∈ numeric_columns ∧
  graph_color_column (setup_graph_controls numeric_columns categorical_columns w st)
    ∈ NONE :: categorical_columns ∧
  graph_x_column (setup_graph_controls numeric_columns categorical_columns w st)
    ∈ match categorical_columns with
      | [] => [graph_x_column st]
      | _ :: _ => NONE :: categorical_columns
      end ∧
  active_filters (setup_graph_controls numeric_columns categorical_columns w st)
    = active_filters st.
Proof.
  intros Hy Hx Hc. rewrite setup_graph_controls_state.
  cbn [graph_y_column graph_color_column graph_x_column active_filters].
  repeat split; [done|done|].
  destruct categorical_columns; [apply list_elem_of_here|done].
Qed.

Lemma setup_graph_controls_selection_witness :
  graph_y_column (setup_graph_controls ["v"] [] widgets_v state_g) ∈ ["v"] ∧
  graph_color_column (setup_graph_controls ["v"] [] widgets_v state_g)
    ∈ NONE :: [] ∧
  graph_x_column (setup_graph_controls ["v"] [] widgets_v state_g)
    ∈ [graph_x_column state_g] ∧
  active_filters (setup_graph_controls ["v"] [] widgets_v state_g)
    = active_filters state_g.
Proof.
  apply (setup_graph_controls_selection ["v"] [] widgets_v state_g).
  - apply list_elem_of_here.
  - apply list_elem_of_here.
  - apply list_elem_of_here.
Defined.

Lemma getitem_list_missing (d : DataFrame) (c1 c2 : string) (loc : nat + nat) :
  locate d c1 = Ok loc → locate d c2 = Raise KeyError →
  getitem_list d [c1; c2] = Raise KeyError.
Proof.
  intros H1 H2. unfold getitem_list. rewrite !mapM_cons, H1, H2. done.
Qed.

(** X14: a group column that is stored from an earlier frame survives
    [setup_graph_controls] when the new frame has no text column (the
    select box is not drawn), and pressing the apply button then raises
    [KeyError]: the chart is asked for a column the frame does not
    have. *)
Theorem stale_group_column_raises (df d : DataFrame) (w : GraphWidgets)
    (st : SessionState) :
  obj_columns df = [] →
  y_column_selector w ∈ num_columns df →
  color_column_selector w ∈ NONE :: obj_columns df →
  graph_x_column st ≠ NONE →
  graph_x_column st ∉ num_columns df →
  apply_filters_to_data df (active_filters st) = Ok d →
  rows d ≠ [] →
  process_graph_settings df
    (setup_graph_controls (num_columns df) (obj_columns df) w st) true
  = Raise KeyError.
Proof.
  intros Hobj Hy Hc Hx Hxn Hd Hrows.
  rewrite setup_graph_controls_state, Hobj. rewrite Hobj in Hc.
  apply list_elem_of_singleton in Hc. rewrite Hc.
  unfold process_graph_settings.
  cbn [graph_y_column graph_x_column graph_color_column graph_show_points
       graph_show_mean active_filters].
  destruct (num_columns df) as [|c0 nc] eqn:Hnum; [by apply elem_of_nil in Hy|].
  rewrite Hd. cbn [mbind result_bind].
  assert (empty d = false) as -> by (unfold empty; by destruct (rows d)).
  cbn [negb]. unfold create_boxplot, plot_frame.
  rewrite (bool_decide_eq_false_2 (graph_x_column st ≠ NONE ∧ NONE ≠ NONE))
    by (intros [_ ?]; done).
  rewrite (bool_decide_eq_true_2 (graph_x_column st ≠ NONE)) by done.
  apply apply_filters_sub_frame in Hd as (Hn & Ho & _).
  destruct (locate_elem_of df (y_column_selector w)) as [loc Hloc].
  { rewrite Hnum, Hobj, app_nil_r. done. }
  rewrite (getitem_list_missing d _ _ loc).
  - done.
  - by rewrite (locate_sub_frame d df).
  - rewrite (locate_sub_frame d df) by done. apply locate_missing.
    by rewrite Hnum, Hobj, app_nil_r.
Qed.

Lemma stale_group_column_raises_witness :
  process_graph_settings frame_numbers
    (setup_graph_controls (num_columns frame_numbers) (obj_columns frame_numbers)
       widgets_v state_g) true
  = Raise KeyError.
Proof.
  apply (stale_group_column_raises frame_numbers frame_numbers widgets_v state_g).
  - reflexivity.
  - apply list_elem_of_here.
  - apply list_elem_of_here.
  - discriminate.
  - cbn. rewrite list_elem_of_singleton. discriminate.
  - reflexivity.
  - discriminate.
Defined.

(** ** Invariants of the chain under the handlers *)

Lemma chain_ok_sublist (df : DataFrame) (st : SessionState) (fs : list FilterInfo) :
  chain_ok df st → fs `sublist_of` active_filters st →
  chain_ok df (set_active_filters st fs).
Proof.
  intros (Hnd & Hsub & Hok) Hfs. unfold chain_ok, applied_columns in *.
  cbn [set_active_filters active_filters].
  assert (filter_column <$> fs `sublist_of` filter_column <$> active_filters st)
    as Hcols by by apply fmap_sublist.
  split; [by eapply sublist_NoDup|]. split.
  - intros c Hc. apply Hsub. by eapply sublist_subseteq.
  - apply Forall_forall. intros f Hf. rewrite Forall_forall in Hok.
    apply Hok. by eapply sublist_subseteq.
Qed.

Lemma chain_ok_counter (df : DataFrame) (st : SessionState) (k : nat) :
  chain_ok df st → chain_ok df (set_filter_counter st k).
Proof. done. Qed.

Lemma fresh_filter_ok (column : string) (d : DataFrame) (loc : nat + nat) :
  filter_ok
    match loc with
    | inl k =>
        let xs := num_cell k <$> rows d in
        numeric column (nanmin xs) (nanmax xs) (nanmin xs, nanmax xs)
    | inr k =>
        let u := sorted (unique (dropna_obj (obj_cell k <$> rows d))) in
        categorical column u u
    end
  ∧ filter_column
      match loc with
      | inl k =>
          let xs := num_cell k <$> rows d in
          numeric column (nanmin xs) (nanmax xs) (nanmin xs, nanmax xs)
      | inr k =>
          let u := sorted (unique (dropna_obj (obj_cell k <$> rows d))) in
          categorical column u u
      end = column.
Proof.
  destruct loc as [k|k]; cbn; [done|].
  split; [|done]. repeat split; auto with frames.
Qed.

Lemma chain_ok_append (df : DataFrame) (st : SessionState) (f : FilterInfo) :
  chain_ok df st → filter_ok f →
  filter_column f ∈ available_columns df st →
  chain_ok df (append_filter st f).
Proof.
  intros (Hnd & Hsub & Hok) Hf Hav. unfold available_columns in Hav.
  apply list_elem_of_filter in Hav as [Hnew Hcol].
  unfold chain_ok, applied_columns in *.
  cbn [append_filter set_active_filters active_filters].
  rewrite fmap_app. cbn [fmap list_fmap]. split; [|split].
  - apply NoDup_app. split; [done|]. split; [|apply NoDup_singleton].
    intros c Hc Hc'. apply list_elem_of_singleton in Hc' as ->. done.
  - intros c [Hc|Hc%list_elem_of_singleton]%elem_of_app; [by apply Hsub|by subst].
  - apply Forall_app. split; [done|]. by constructor.
Qed.

(** X15: [setup_data_filters_with_button] keeps the chain in order:
    whether it removes a filter, adds one or does nothing, afterwards no
    column carries two filters, every filter is on a column of the
    frame and every selection is a duplicate-free part of its domain.
    The select box returns the first choice or a column without a
    filter. *)
Theorem setup_data_filters_keeps_chain_ok (df : DataFrame) (w : FilterWidgets)
    (st : SessionState) (fl : Flow) :
  chain_ok df st →
  new_filter_column w ∈ NOT_SELECTED :: available_columns df st →
  setup_data_filters_with_button df w st = Ok fl →
  chain_ok df (flow_state fl).
Proof.
  intros Hok Hsel. unfold setup_data_filters_with_button.
  destruct (list_find _ _) as [[j i]|] eqn:Hfind.
  - intros H. apply bind_Ok in H as (st' & Hrm & [= <-]). cbn [flow_state].
    unfold remove_filter in Hrm. apply bind_Ok in Hrm as ([f fs] & Hpop & [= <-]).
    unfold list_pop in Hpop.
    destruct (active_filters st !! i) as [f'|]; [|done].
    injection Hpop as _ <-. cbn [snd].
    apply chain_ok_sublist; [done|apply sublist_delete].
  - destruct (available_columns df st) as [|c0 av] eqn:Hav; [by intros [= <-]|].
    case_bool_decide as Hne; [|by intros [= <-]].
    destruct (add_filter_button w); [|by intros [= <-]].
    intros H. apply bind_Ok in H as (st' & Hadd & [= <-]). cbn [flow_state].
    apply chain_ok_counter.
    apply elem_of_cons in Hsel as [?|Hnew]; [done|].
    assert (new_filter_column w ∈ num_columns df ++ obj_columns df) as Hcol.
    { rewrite <- Hav in Hnew. unfold available_columns in Hnew.
      by apply list_elem_of_filter in Hnew as [_ ?]. }
    destruct (locate_elem_of df _ Hcol) as [loc Hloc].
    destruct (apply_current_filters st df) as [d|e] eqn:Hd;
      [|unfold add_new_filter in Hadd; by rewrite Hd in Hadd].
    rewrite (add_new_filter_located df d _ st loc) in Hadd by done.
    injection Hadd as <-.
    destruct (fresh_filter_ok (new_filter_column w) d loc) as [Hf Hc].
    apply chain_ok_append; [done|done|].
    rewrite Hav. by destruct loc.
Qed.
Lemma chain_ok_state_Y : chain_ok scenario_A state_Y.
Proof.
  split; [apply NoDup_singleton|]. split.
  - intros c Hc. apply list_elem_of_singleton in Hc as ->.
    apply list_elem_of_further, list_elem_of_here.
  - constructor; [|constructor]. split; [|split].
    + apply NoDup_cons. split; [|apply NoDup_singleton].
      rewrite list_elem_of_singleton. discriminate.
    + apply NoDup_singleton.
    + intros v Hv. apply list_elem_of_singleton in Hv as ->.
      apply list_elem_of_further, list_elem_of_here.
Defined.

Lemma setup_data_filters_keeps_chain_ok_witness :
  chain_ok scenario_A (set_filter_counter state_E 1).
Proof.
  apply (setup_data_filters_keeps_chain_ok scenario_A add_v state_Y
           (Rerun (set_filter_counter state_E 1))).
  - apply chain_ok_state_Y.
  - apply list_elem_of_further, list_elem_of_here.
  - reflexivity.
Defined.

(** ** The filter controls *)

Lemma list_remove_sublist (v : string) (l : list string) :
  list_remove v l `sublist_of` l.
Proof.
  induction l as [|x l IH]; [done|]. cbn [list_remove].
  case_bool_decide; by constructor.
Qed.

Lemma elem_of_list_remove (v x : string) (l : list string) :
  NoDup l → x ∈ list_remove v l ↔ x ∈ l ∧ x ≠ v.
Proof.
  induction 1 as [|y l Hy Hnd IH]; cbn [list_remove].
  - rewrite elem_of_nil. tauto.
  - case_bool_decide as Hyv.
    + subst y. rewrite elem_of_cons. split.
      * intros Hx. split; [by right|]. by intros ->.
      * intros [[->|Hx] Hne]; done.
    + rewrite !elem_of_cons, IH. split.
      * intros [->|[Hx Hne]]; [split; [by left|done]|split; [by right|done]].
      * intros [[->|Hx] Hne]; [by left|by right].
Qed.

Lemma check_value_NoDup (b : bool) (selected : list string) (v : string) :
  NoDup selected → NoDup (check_value b selected v).
Proof.
  intros Hnd. unfold check_value.
  destruct b; cbn [andb negb]; case_bool_decide as Hv; try done.
  - apply NoDup_app. split; [done|]. split; [|apply NoDup_singleton].
    intros x Hx Hx'. apply list_elem_of_singleton in Hx' as ->. done.
  - eapply sublist_NoDup; [done|apply list_remove_sublist].
Qed.

Lemma elem_of_check_value (b : bool) (selected : list string) (v x : string) :
  NoDup selected →
  x ∈ check_value b selected v ↔ (x = v ∧ b = true) ∨ (x ≠ v ∧ x ∈ selected).
Proof.
  intros Hnd. unfold check_value.
  destruct b; cbn [andb negb]; case_bool_decide as Hv.
  - rewrite elem_of_app, list_elem_of_singleton.
    destruct (decide (x = v)) as [->|Hne]; [tauto|]. tauto.
  - destruct (decide (x = v)) as [->|Hne]; [tauto|]. tauto.
  - rewrite elem_of_list_remove by done.
    split; [intros [? ?]; right; done|intros [[_ [=]]|[? ?]]; done].
  - split; [|intros [[_ [=]]|[? ?]]; done].
    intros Hx. right. split; [|done]. by intros ->.
Qed.

Lemma check_values_cons (checkbox : string → bool) (u : string)
    (unique_values selected : list string) :
  check_values checkbox (u :: unique_values) selected =
  check_values checkbox unique_values (check_value (checkbox u) selected u).
Proof. done. Qed.

Lemma check_values_NoDup (checkbox : string → bool)
    (unique_values selected : list string) :
  NoDup selected → NoDup (check_values checkbox unique_values selected).
Proof.
  revert selected. induction unique_values as [|u uv IH]; intros selected Hnd; [done|].
  rewrite check_values_cons. by apply IH, check_value_NoDup.
Qed.

(** After the loop over the check boxes the selection holds the checked
    values of the domain, and what it held outside the domain. *)
Lemma elem_of_check_values (checkbox : string → bool)
    (unique_values selected : list string) (x : string) :
  NoDup selected →
  x ∈ check_values checkbox unique_values selected ↔
  (x ∈ unique_values ∧ checkbox x = true) ∨ ((x ∉ unique_values) ∧ x ∈ selected).
Proof.
  revert selected. induction unique_values as [|u uv IH]; intros selected Hnd.
  - cbn. rewrite elem_of_nil. tauto.
  - rewrite check_values_cons, IH by by apply check_value_NoDup.
    rewrite elem_of_check_value by done. rewrite not_elem_of_cons, elem_of_cons.
    destruct (decide (x = u)) as [->|Hne]; [|tauto].
    destruct (decide (u ∈ uv)); tauto.
Qed.

Lemma filter_control_column (w : ControlWidgets) (i : nat) (f : FilterInfo) :
  filter_column (filter_control w i f).1 = filter_column f ∧
  domain (filter_control w i f).1 = domain f.
Proof.
  destruct f as [c a s|c lo hi r]; cbn [filter_control].
  - destruct (select_all w i); [done|]. by destruct (deselect_all w i).
  - by destruct (negb (feq lo hi)).
Qed.

Lemma filter_controls_cons (w : ControlWidgets) (i : nat) (f : FilterInfo)
    (rest : list FilterInfo) :
  filter_controls w i (f :: rest) =
    if (filter_control w i f).2 then ((filter_control w i f).1 :: rest, true)
    else ((filter_control w i f).1 :: (filter_controls w (S i) rest).1,
          (filter_controls w (S i) rest).2).
Proof.
  cbn [filter_controls]. destruct (filter_control w i f) as [f' [|]]; [done|].
  by destruct (filter_controls w (S i) rest).
Qed.

Lemma filter_controls_columns (w : ControlWidgets) (i : nat) (fs : list FilterInfo) :
  filter_column <$> (filter_controls w i fs).1 = filter_column <$> fs ∧
  domain <$> (filter_controls w i fs).1 = domain <$> fs.
Proof.
  revert i. induction fs as [|f fs IH]; intros i; [done|].
  rewrite filter_controls_cons.
  destruct (filter_control_column w i f) as [Hc Hd].
  destruct (IH (S i)) as [IHc IHd].
  destruct (filter_control w i f).2; cbn [fst fmap list_fmap];
    rewrite ?Hc, ?Hd; [done|]. split; f_equal; done.
Qed.

Lemma filter_control_ok (w : ControlWidgets) (i : nat) (f : FilterInfo) :
  filter_ok f → filter_ok (filter_control w i f).1.
Proof.
  destruct f as [c a s|c lo hi r]; cbn [filter_control].
  - intros (Ha & Hs & Hsub).
    destruct (select_all w i); [done|].
    destruct (deselect_all w i); cbn [fst filter_ok].
    + repeat split; [done|apply NoDup_nil_2|]. by intros x Hx%elem_of_nil.
    + split; [done|]. split; [by apply check_values_NoDup|].
      intros x Hx. apply elem_of_check_values in Hx as [[? _]|[_ ?]]; auto.
  - by destruct (negb (feq lo hi)).
Qed.

Lemma filter_controls_ok (w : ControlWidgets) (i : nat) (fs : list FilterInfo) :
  Forall filter_ok fs → Forall filter_ok (filter_controls w i fs).1.
Proof.
  revert i. induction fs as [|f fs IH]; intros i Hok; [done|].
  apply Forall_cons in Hok as [Hf Hfs]. rewrite filter_controls_cons.
  destruct (filter_control w i f).2; cbn [fst];
    (constructor; [by apply filter_control_ok|auto]).
Qed.

Lemma setup_filter_controls_state (w : ControlWidgets) (st : SessionState) :
  flow_state (setup_filter_controls w st) =
    set_active_filters st (filter_controls w 0 (active_filters st)).1.
Proof.
  unfold setup_filter_controls.
  destruct (active_filters st) as [|f fs] eqn:Hfs.
  - cbn. destruct st. cbn in *. by subst.
  - destruct (filter_controls w 0 (f :: fs)) as [fs' [|]]; done.
Qed.

(** X16: [setup_filter_controls] keeps the chain in order: whatever
    buttons, check boxes and sliders say, afterwards no column carries
    two filters, every filter is on a column of the frame and every
    selection is a duplicate-free part of its domain. *)
Theorem setup_filter_controls_keeps_chain_ok (df : DataFrame) (w : ControlWidgets)
    (st : SessionState) :
  chain_ok df st → chain_ok df (flow_state (setup_filter_controls w st)).
Proof.
  intros (Hnd & Hsub & Hok). rewrite setup_filter_controls_state.
  unfold chain_ok, applied_columns in *. cbn [set_active_filters active_filters].
  destruct (filter_controls_columns w 0 (active_filters st)) as [-> _].
  split; [done|]. split; [done|]. by apply filter_controls_ok.
Qed.

(** X17: [setup_filter_controls] changes selections and ranges only:
    the chain keeps its length, every filter keeps its column and its
    domain ([all_values], or [min_val] and [max_val]), and the rest of
    the session state is as before. *)
Theorem setup_filter_controls_keeps_domains (w : ControlWidgets) (st : SessionState) :
  filter_column <$> active_filters (flow_state (setup_filter_controls w st))
    = filter_column <$> active_filters st ∧
  domain <$> active_filters (flow_state (setup_filter_controls w st))
    = domain <$> active_filters st ∧
  set_active_filters (flow_state (setup_filter_controls w st)) (active_filters st)
    = st.
Proof.
  rewrite setup_filter_controls_state. cbn [set_active_filters active_filters].
  destruct (filter_controls_columns w 0 (active_filters st)) as [Hc Hd].
  split; [done|]. split; [done|]. by destruct st.
Qed.

Lemma filter_controls_lookup_numeric (w : ControlWidgets) (fs : list FilterInfo)
    (k i : nat) (column : string) (min_val max_val : float)
    (selected_range : float * float) :
  fs !! i = Some (numeric column min_val max_val selected_range) →
  (filter_controls w k fs).1 !! i =
    Some (if (filter_controls w k (take i fs)).2
          then numeric column min_val max_val selected_range
          else (filter_control w (k + i)
                  (numeric column min_val max_val selected_range)).1).
Proof.
  revert k i. induction fs as [|f fs IH]; intros k i Hi; [done|].
  rewrite filter_controls_cons. destruct i as [|i]; cbn in Hi.
  - injection Hi as ->. cbn [take filter_controls snd]. rewrite Nat.add_0_r.
    by destruct (filter_control w k _).2.
  - cbn [take]. rewrite filter_controls_cons.
    destruct (filter_control w k f).2; cbn [fst snd lookup]; [done|].
    cbn. rewrite (IH (S k) i Hi). by replace (S k + i) with (k + S i) by lia.
Qed.

(** X18: a numeric filter whose least and greatest value are equal has
    no slider: [setup_filter_controls] never changes it, so its range
    stays the single value of its column. *)
Theorem single_value_range_is_fixed (w : ControlWidgets) (st : SessionState)
    (i : nat) (column : string) (min_val max_val : float)
    (selected_range : float * float) :
  feq min_val max_val = true →
  active_filters st !! i = Some (numeric column min_val max_val selected_range) →
  active_filters (flow_state (setup_filter_controls w st)) !! i
    = Some (numeric column min_val max_val selected_range).
Proof.
  intros Heq Hi. rewrite setup_filter_controls_state.
  cbn [set_active_filters active_filters].
  rewrite (filter_controls_lookup_numeric w _ 0 i _ _ _ _ Hi).
  cbn [filter_control]. rewrite Heq. cbn [negb fst].
  by destruct (filter_controls w 0 (take i (active_filters st))).2.
Qed.
Lemma setup_filter_controls_keeps_chain_ok_witness :
  chain_ok scenario_A (flow_state (setup_filter_controls controls_X state_Y)).
Proof.
  apply (setup_filter_controls_keeps_chain_ok scenario_A controls_X state_Y).
  apply chain_ok_state_Y.
Defined.

Lemma single_value_range_is_fixed_witness :
  active_filters (flow_state (setup_filter_controls controls_X state_E)) !! 1
    = Some (numeric "v" (n 100) (n 100) (n 100, n 100)).
Proof.
  apply (single_value_range_is_fixed controls_X state_E 1 "v" (n 100) (n 100)
           (n 100, n 100)); reflexivity.
Defined.

(** X19: when no button of a categorical filter is pressed, the loop
    over its check boxes leaves exactly the checked values of the
    domain selected, each of them once. *)
Theorem check_boxes_select_checked_values (w : ControlWidgets) (i : nat)
    (column : string) (all_values selected_values : list string) :
  select_all w i = false →
  deselect_all w i = false →
  NoDup selected_values →
  selected_values ⊆ all_values →
  ∃ selected,
    filter_control w i (categorical column all_values selected_values)
      = (categorical column all_values selected, false) ∧
    NoDup selected ∧
    ∀ v, v ∈ selected ↔ v ∈ all_values ∧ filter_check w i v = true.
Proof.
  intros Hs Hd Hnd Hsub. cbn [filter_control]. rewrite Hs, Hd.
  eexists. split; [done|]. split; [by apply check_values_NoDup|].
  intros v. rewrite elem_of_check_values by done. split; [|tauto].
  intros [?|[Hv Hv']]; [done|]. by apply Hsub in Hv'.
Qed.

Lemma check_boxes_select_checked_values_witness :
  ∃ selected,
    filter_control controls_X 0 (categorical "g" ["X"; "Y"] ["Y"])
      = (categorical "g" ["X"; "Y"] selected, false) ∧
    NoDup selected ∧
    ∀ v, v ∈ selected ↔ v ∈ ["X"; "Y"] ∧ filter_check controls_X 0 v = true.
Proof.
  apply (check_boxes_select_checked_values controls_X 0 "g" ["X"; "Y"] ["Y"]).
  - reflexivity.
  - reflexivity.
  - apply NoDup_singleton.
  - intros v Hv. apply list_elem_of_singleton in Hv as ->.
    apply list_elem_of_further, list_elem_of_here.
Defined.




(** ** Statistics of the groups *)

Lemma where_eq_located (df : DataFrame) (x_column : string) (k : nat) (g : string) :
  locate df x_column = Ok (inr k) →
  where_eq df x_column g =
    Ok (with_rows df (filter (λ r, obj_cell k r = Some g) (rows df))).
Proof.
  intros Hloc. unfold where_eq. rewrite getitem_locate, Hloc.
  cbn [mbind result_bind series_eq]. unfold getitem_mask, with_rows. do 2 f_equal.
  rewrite <- list_fmap_compose.
  rewrite (select_fmap ((λ o, bool_decide (o = Some g)) ∘ obj_cell k)).
  apply filter_ext_in. intros r _. apply bool_decide_eq_true.
Qed.

Lemma group_values_located (df : DataFrame) (x_column y_column : string)
    (kx ky : nat) (g : string) :
  locate df x_column = Ok (inr kx) →
  locate df y_column = Ok (inl ky) →
  group_values df x_column y_column g =
    Ok (num_cell ky <$> filter (λ r, obj_cell kx r = Some g) (rows df)).
Proof.
  intros Hx Hy. unfold group_values. rewrite (where_eq_located _ _ kx) by done.
  cbn [mbind result_bind]. rewrite getitem_with_rows, Hy. done.
Qed.

(** A group column that is read as text is a text column, a value
    column that is read as numbers is a numeric column. *)
Lemma text_values_located (df : DataFrame) (c : string) (values : list string) :
  getitem df c ≫= text_values = Ok values →
  ∃ k, locate df c = Ok (inr k) ∧ values = dropna_obj (obj_cell k <$> rows df).
Proof.
  intros H. apply bind_Ok in H as (s & Hs & Hv).
  destruct s as [xs|xs]; [done|]. injection Hv as <-.
  apply getitem_ObjectSeries in Hs as (k & Hk & ->). eauto.
Qed.

Lemma float_values_located (df : DataFrame) (c : string) (ys : list float) :
  getitem df c ≫= float_values = Ok ys →
  ∃ k, locate df c = Ok (inl k) ∧ ys = num_cell k <$> rows df.
Proof.
  intros H. apply bind_Ok in H as (s & Hs & Hv).
  destruct s as [xs|xs]; [|done]. injection Hv as <-.
  apply getitem_FloatSeries in Hs as (k & Hk & ->). eauto.
Qed.

Lemma length_filter_dropna_obj {A} (cell : A → option string) (g : string)
    (rs : list A) :
  length (filter (λ v, v = g) (dropna_obj (cell <$> rs)))
  = length (filter (λ r, cell r = Some g) rs).
Proof.
  unfold dropna_obj. induction rs as [|r rs IH]; [done|].
  cbn [fmap list_fmap omap list_omap]. rewrite (filter_cons _ r).
  destruct (cell r) as [v|] eqn:Hv; cbn [id].
  - rewrite filter_cons. destruct (decide (v = g)) as [->|Hne].
    + rewrite decide_True by done. cbn [length]. by rewrite <- IH.
    + rewrite decide_False by congruence. apply IH.
  - rewrite decide_False by done. apply IH.
Qed.

Lemma sum_list_with_indicator (keys : list string) (x : string) :
  NoDup keys → x ∈ keys →
  sum_list_with (λ k, if decide (x = k) then 1 else 0) keys = 1.
Proof.
  induction 1 as [|k keys Hk Hnd IH]; [by intros ?%elem_of_nil|].
  cbn [sum_list_with]. intros [->|Hx]%elem_of_cons.
  - rewrite decide_True by done.
    assert (sum_list_with (λ k0, if decide (k = k0) then 1 else 0) keys = 0) as ->;
      [|done].
    clear IH Hnd. induction keys as [|k' keys IH]; [done|]. cbn [sum_list_with].
    apply not_elem_of_cons in Hk as [? ?]. rewrite decide_False by done. auto.
  - rewrite decide_False by (intros ->; done). rewrite IH by done. done.
Qed.

(** Counting the values key by key counts every value once. *)
Lemma sum_list_with_counts (keys values : list string) :
  NoDup keys → values ⊆ keys →
  sum_list_with (λ k, length (filter (λ v, v = k) values)) keys = length values.
Proof.
  intros Hnd. induction values as [|x values IH]; intros Hsub.
  - cbn. clear. induction keys; [done|]. cbn. done.
  - assert (x ∈ keys) as Hx by (apply Hsub; left).
    assert (values ⊆ keys) as Hsub' by (intros v Hv; apply Hsub; by right).
    assert (sum_list_with (λ k, length (filter (λ v, v = k) (x :: values))) keys
            = sum_list_with (λ k, if decide (x = k) then 1 else 0) keys
              + sum_list_with (λ k, length (filter (λ v, v = k) values)) keys) as ->.
    { clear. induction keys as [|k keys IH]; [done|]. cbn [sum_list_with].
      rewrite filter_cons, IH. destruct (decide (x = k)); cbn [length]; lia. }
    rewrite sum_list_with_indicator, IH by done. done.
Qed.

Lemma sum_list_with_fmap {A} (f : A → nat) (l : list A) :
  sum_list (f <$> l) = sum_list_with f l.
Proof. induction l; cbn; [done|]. by f_equal. Qed.

Lemma length_finite_values (xs : list float) :
  (length (finite_values xs) ≤ length xs)%nat.
Proof.
  unfold finite_values. induction xs as [|[|q] xs IH]; cbn; lia.
Qed.

(** X21: the two tables of the grouped statistics agree with the data:
    every group of the count table has at least one row, the counts add
    up to the number of rows that have a group value, and the number of
    values described for a group is at most the count of that group
    (rows without a value are counted but not described). *)
Theorem group_counts_cover_rows (df : DataFrame) (y_column x_column : string)
    (grouped_stats : list (string * Describe)) (group_counts : list (string * nat)) :
  x_column ≠ NONE →
  show_statistics df y_column x_column = Ok (group_stats grouped_stats group_counts) →
  ∃ xs,
    getitem df x_column = Ok (ObjectSeries xs) ∧
    Forall (λ p, 0 < p.2) group_counts ∧
    sum_list group_counts.*2 = length (dropna_obj xs) ∧
    Forall2 (λ s c, s.1 = c.1 ∧ (count s.2 ≤ c.2)%nat) grouped_stats group_counts.
Proof.
  intros Hx H. unfold show_statistics in H.
  rewrite bool_decide_eq_false_2 in H by done.
  apply bind_Ok in H as (keys & Hkeys & H).
  apply bind_Ok in H as (gs & Hgs & H).
  apply bind_Ok in H as (gc & Hgc & H).
  injection H as <- <-.
  unfold groupby_keys in Hkeys. apply bind_Ok in Hkeys as (values & Hvalues & [= <-]).
  unfold value_counts_sorted in Hgc. rewrite Hvalues in Hgc.
  cbn [mbind result_bind] in Hgc. injection Hgc as <-.
  apply text_values_located in Hvalues as (kx & Hlx & ->).
  exists (obj_cell kx <$> rows df). split; [by rewrite getitem_locate, Hlx|].
  set (values := dropna_obj (obj_cell kx <$> rows df)) in *.
  split; [|split].
  - apply Forall_fmap, Forall_forall. intros k Hk. cbn.
    rewrite elem_of_sorted, elem_of_unique in Hk.
    destruct (filter (λ v, v = k) values) as [|v l] eqn:Hf; [|cbn; lia].
    assert (k ∈ filter (λ v, v = k) values) as Hin by (apply list_elem_of_filter; by split).
    rewrite Hf in Hin. by apply elem_of_nil in Hin.
  - rewrite <- list_fmap_compose. rewrite sum_list_with_fmap.
    apply sum_list_with_counts; [auto with frames|].
    intros v Hv. by rewrite elem_of_sorted, elem_of_unique.
  - apply mapM_Ok_Forall2 in Hgs. apply Forall2_fmap_r.
    eapply Forall2_flip, Forall2_impl; [exact Hgs|].
    intros k [k' ds] Hk. cbn. apply bind_Ok in Hk as (ys & Hys & [= <- <-]).
    split; [done|]. cbn [count describe].
    unfold group_values in Hys. rewrite (where_eq_located _ _ kx) in Hys by done.
    cbn [mbind result_bind] in Hys.
    apply float_values_located in Hys as (ky & _ & ->). cbn [rows with_rows].
    unfold values. rewrite length_filter_dropna_obj.
    rewrite length_finite_values. by rewrite length_fmap.
Qed.

Lemma group_counts_cover_rows_witness :
  ∃ xs,
    getitem scenario_A "g" = Ok (ObjectSeries xs) ∧
    Forall (λ p, 0 < p.2) [("X", 2); ("Y", 1)] ∧
    sum_list [("X", 2); ("Y", 1)].*2 = length (dropna_obj xs) ∧
    Forall2 (λ s c, s.1 = c.1 ∧ (count s.2 ≤ c.2)%nat)
      [("X", describe [n 1; n 2]); ("Y", describe [n 100])] [("X", 2); ("Y", 1)].
Proof.
  apply (group_counts_cover_rows scenario_A "v" "g").
  - discriminate.
  - reflexivity.
Defined.

(** ** The plotted frame *)

Lemma locate_dropna (P : DataFrame) (c : string) :
  locate (dropna P) c = locate P c.
Proof. by apply locate_sub_frame. Qed.

(** In the plotted frame every cell of a selected column has a value. *)
Lemma plot_frame_cells (df P : DataFrame) (cols : list string) (c : string)
    (r : Row) :
  getitem_list df cols = Ok P → c ∈ cols → r ∈ rows (dropna P) →
  match locate (dropna P) c with
  | Ok (inl k) => ∃ q, num_cell k r = Fin q
  | Ok (inr k) => ∃ v, obj_cell k r = Some v
  | Raise _ => False
  end.
Proof.
  intros (locs & Hall & HP)%getitem_list_Ok Hin Hr.
  assert (∃ loc, locate df c = Ok loc) as [loc Hloc].
  { apply list_elem_of_lookup in Hin as [i Hi].
    destruct (Forall2_lookup_l _ _ _ _ _ Hall Hi) as (loc & _ & Hloc). eauto. }
  rewrite locate_dropna.
  unfold dropna in Hr. cbn [rows] in Hr.
  apply list_elem_of_filter in Hr as [Hc Hr]. subst P. cbn [rows] in Hr.
  apply list_elem_of_fmap in Hr as (r0 & -> & Hr0).
  unfold row_complete in Hc. apply andb_true_iff in Hc as [Hnum Hobj].
  destruct loc as [k|k].
  - destruct (project_num df cols locs c k Hall Hloc Hin) as (k' & Hk' & Hidx).
    unfold locate. cbn [num_columns]. rewrite Hk'.
    rewrite forallb_elem_of in Hnum.
    assert (nums (project_row locs r0) !! k' = Some (num_cell k r0)) as Hcell.
    { unfold project_row. cbn [nums]. by rewrite list_lookup_fmap, Hidx. }
    unfold num_cell at 1. rewrite Hcell. cbn [default].
    specialize (Hnum _ (list_elem_of_lookup_2 _ _ _ Hcell)).
    destruct (num_cell k r0) as [|q]; [done|eauto].
  - destruct (project_obj df cols locs c k Hall Hloc Hin) as (k' & Hk' & Hidx).
    unfold locate. cbn [num_columns obj_columns].
    rewrite index_of_None, Hk'.
    2:{ rewrite list_elem_of_filter, (is_numeric_inr _ _ _ Hloc). by intros [[=] _]. }
    rewrite forallb_elem_of in Hobj.
    assert (objs (project_row locs r0) !! k' = Some (obj_cell k r0)) as Hcell.
    { unfold project_row. cbn [objs]. by rewrite list_lookup_fmap, Hidx. }
    unfold obj_cell at 1. rewrite Hcell. cbn [mjoin option_join].
    specialize (Hobj _ (list_elem_of_lookup_2 _ _ _ Hcell)).
    apply bool_decide_eq_true in Hobj as [v Hv]. eauto.
Qed.

(** The frames that [create_boxplot] plots: selected columns, rows
    without a missing cell *)
Lemma plot_frame_Ok (df plot_df : DataFrame) (y_column x_column color_column : string) :
  plot_frame df y_column x_column color_column = Ok plot_df →
  ∃ cols P, getitem_list df cols = Ok P ∧ plot_df = dropna P ∧
    y_column ∈ cols ∧ (x_column ≠ NONE → x_column ∈ cols) ∧
    (x_column ≠ NONE → color_column ≠ NONE → color_column ∈ cols).
Proof.
  unfold plot_frame. repeat case_bool_decide; intros Hplot;
    apply fmap_Ok in Hplot as (P & HP & ->); eexists _, P;
    (split; [exact HP|]); (split; [done|]).
  - split; [left|]. split; intros; [right; left|right; right; left].
  - split; [left|]. split; intros; [right; left|tauto].
  - split; [left|]. split; intros; tauto.
Qed.

Lemma plot_frame_numbers (df plot_df : DataFrame)
    (y_column x_column color_column : string) (k : nat) :
  plot_frame df y_column x_column color_column = Ok plot_df →
  locate plot_df y_column = Ok (inl k) →
  ∃ samples, num_cell k <$> rows plot_df = Fin <$> samples.
Proof.
  intros (cols & P & HP & -> & Hy & _ & _)%plot_frame_Ok Hloc.
  assert (∀ r, r ∈ rows (dropna P) → ∃ q, num_cell k r = Fin q) as Hcells.
  { intros r Hr. pose proof (plot_frame_cells df P cols y_column r HP Hy Hr) as H.
    by rewrite Hloc in H. }
  revert Hcells. generalize (rows (dropna P)). intros rs.
  induction rs as [|r rs IH]; intros Hcells; [by exists []|].
  destruct (Hcells r) as [q Hq]; [left|].
  destruct IH as [samples Hs]; [intros r' Hr'; apply Hcells; by right|].
  exists (q :: samples). cbn [fmap list_fmap]. by rewrite Hq, <- Hs.
Qed.

Lemma plot_frame_texts (df plot_df : DataFrame)
    (y_column x_column color_column : string) (k : nat) (r : Row) :
  plot_frame df y_column x_column color_column = Ok plot_df →
  x_column ≠ NONE →
  locate plot_df x_column = Ok (inr k) →
  r ∈ rows plot_df → ∃ v, obj_cell k r = Some v.
Proof.
  intros (cols & P & HP & -> & _ & Hx & _)%plot_frame_Ok Hne Hloc Hr.
  pose proof (plot_frame_cells df P cols x_column r HP (Hx Hne) Hr) as H.
  by rewrite Hloc in H.
Qed.
(** ** Points and boxes *)









Lemma concat_mapM_Ok {A B} (f : A → result (list B)) (l : list A) (k : list B) :
  concat_mapM f l = Ok k ↔
  ∃ ts, Forall2 (λ x t, f x = Ok t) l ts ∧ k = concat ts.
Proof.
  unfold concat_mapM. rewrite bind_Ok. split.
  - intros (ts & Hts & [= <-]). exists ts. split; [by apply mapM_Ok_Forall2|done].
  - intros (ts & Hts & ->). exists ts. split; [by apply mapM_Ok_Forall2|done].
Qed.









(** ** The mean markers of the groups *)

Lemma concat_mapM_singletons {A B} (f : A → result (list B)) (h : A → B)
    (l : list A) :
  (∀ x, x ∈ l → f x = Ok [h x]) → concat_mapM f l = Ok (h <$> l).
Proof.
  intros Hf. apply concat_mapM_Ok. exists ((λ x, [h x]) <$> l). split.
  - apply Forall2_fmap_r, Forall_Forall2_diag, Forall_forall. exact Hf.
  - induction l as [|x l IH]; [done|]. cbn. f_equal. apply IH.
    intros y Hy. apply Hf. by right.
Qed.

Lemma group_points_legendgroup (plot_df : DataFrame) (x_column y_column : string)
    (p : nat * string) (ts : list Trace) :
  group_points plot_df x_column y_column p = Ok ts →
  Forall (λ t, trace_legendgroup t ≠ Some "mean") ts.
Proof.
  destruct p as [i g]. unfold group_points. intros H.
  apply bind_Ok in H as (data & _ & H). case_bool_decide; [by injection H as <-|].
  injection H as <-. apply Forall_app. split; case_bool_decide; by repeat constructor.
Qed.

(** X23: in the branch with a group column and no color column the
    mean markers come last in the figure, one for every group in the
    ascending order of the groups, none left out: every group has a
    value, and its marker stands at the mean of the values of the group;
    the first marker alone is shown in the legend. *)
Theorem grouped_mean_markers (df plot_df : DataFrame) (y_column x_column : string)
    (show_points : bool) (fig : list Trace) (title : string) (groups : list string) :
  x_column ≠ NONE →
  plot_frame df y_column x_column NONE = Ok plot_df →
  sorted_unique plot_df x_column = Ok groups →
  create_boxplot df y_column x_column NONE show_points true
    = Ok (plotly_chart fig title) →
  ∃ others means,
    fig = others ++ means ∧
    Forall (λ t, trace_legendgroup t ≠ Some "mean") others ∧
    length means = length groups ∧
    ∀ i g, groups !! i = Some g →
      ∃ data,
        group_values plot_df x_column y_column g = Ok data ∧ data ≠ [] ∧
        means !! i =
          Some (mkTrace Scatter [g] [series_mean data]
                  (if bool_decide (i = 0) then "평균" else EmptyString) "White"
                  (Some (label "평균: " (series_mean data) 1))
                  (bool_decide (i = 0)) (Some "mean") None false).
Proof.
  intros Hx Hplot Hgroups H. unfold create_boxplot in H. rewrite Hplot in H.
  cbn [mbind result_bind] in H. destruct (empty plot_df); [done|].
  rewrite bool_decide_eq_false_2 in H by done.
  rewrite bool_decide_eq_false_2 in H by (intros Hne; by apply Hne).
  unfold grouped_boxes in H. rewrite Hgroups in H. cbn [mbind result_bind] in H.
  apply bind_Ok in H as (xs & _ & H).
  apply bind_Ok in H as (ys & Hys & H).
  apply bind_Ok in H as (points & Hpoints & H).
  apply bind_Ok in H as (means & Hmeans & [= <- _]).
  unfold sorted_unique in Hgroups. apply bind_Ok in Hgroups as (values & Hv & [= <-]).
  apply text_values_located in Hv as (kx & Hlx & ->).
  apply float_values_located in Hys as (ky & Hly & ->).
  set (groups := sorted (unique (dropna_obj (obj_cell kx <$> rows plot_df)))) in *.
  set (data := λ g, num_cell ky <$> filter (λ r, obj_cell kx r = Some g) (rows plot_df)).
  set (marker := λ p : nat * string,
         mkTrace Scatter [p.2] [series_mean (data p.2)]
           (if bool_decide (p.1 = 0) then "평균" else EmptyString) "White"
           (Some (label "평균: " (series_mean (data p.2)) 1))
           (bool_decide (p.1 = 0)) (Some "mean") None false).
  assert (∀ g, g ∈ groups → data g ≠ []) as Hdata.
  { intros g Hg. unfold groups in Hg.
    rewrite elem_of_sorted, elem_of_unique, elem_of_dropna_obj in Hg.
    apply list_elem_of_fmap in Hg as (r & Hr & Hin). unfold data.
    intros Hnil. apply fmap_nil_inv in Hnil.
    assert (r ∈ filter (λ r, obj_cell kx r = Some g) (rows plot_df)) as Hin'
      by (apply list_elem_of_filter; by split).
    rewrite Hnil in Hin'. by apply elem_of_nil in Hin'. }
  assert (means = marker <$> imap pair groups) as ->.
  { rewrite (concat_mapM_singletons _ marker) in Hmeans; [congruence|].
    intros [i g] Hin. apply elem_of_lookup_imap in Hin as (i' & g' & [= -> ->] & Hi).
    unfold group_mean. rewrite (group_values_located _ _ _ kx ky) by done.
    cbn [mbind result_bind]. fold (data g').
    rewrite bool_decide_eq_false_2; [done|].
    intros Hlen%length_zero_iff_nil. eapply Hdata; [|done].
    by eapply list_elem_of_lookup_2. }
  eexists (_ :: points), _. split; [done|]. split; [|split].
  - constructor; [done|]. destruct show_points.
    + eapply concat_mapM_Forall; [|exact Hpoints].
      intros p ts. apply group_points_legendgroup.
    + injection Hpoints as <-. constructor.
  - by rewrite length_fmap, length_imap.
  - intros i g Hi. exists (data g). split; [|split].
    + by apply group_values_located.
    + apply Hdata. by eapply list_elem_of_lookup_2.
    + rewrite list_lookup_fmap, list_lookup_imap, Hi. done.
Qed.

Lemma grouped_mean_markers_witness :
  ∃ others means,
    scenario_A_means = others ++ means ∧
    Forall (λ t, trace_legendgroup t ≠ Some "mean") others ∧
    length means = length ["X"; "Y"] ∧
    ∀ i g, ["X"; "Y"] !! i = Some g →
      ∃ data,
        group_values scenario_A "g" "v" g = Ok data ∧ data ≠ [] ∧
        means !! i =
          Some (mkTrace Scatter [g] [series_mean data]
                  (if bool_decide (i = 0) then "평균" else EmptyString) "White"
                  (Some (label "평균: " (series_mean data) 1))
                  (bool_decide (i = 0)) (Some "mean") None false).
Proof.
  apply (grouped_mean_markers scenario_A scenario_A "v" "g" false
           scenario_A_means "v by g" ["X"; "Y"]).
  - discriminate.
  - reflexivity.
  - reflexivity.
  - vm_compute. reflexivity.
Defined.
(** ** No valid data *)

Lemma plot_frame_selected (df : DataFrame) (y_column x_column color_column : string) :
  plot_frame df y_column x_column color_column =
    dropna <$> getitem_list df (selected_columns y_column x_column color_column).
Proof. unfold plot_frame, selected_columns. by repeat case_bool_decide. Qed.

Lemma row_complete_project (df : DataFrame) (cols : list string)
    (locs : list (nat + nat)) (r : Row) :
  Forall2 (λ c loc, locate df c = Ok loc) cols locs →
  row_complete (project_row locs r) = forallb (has_value df r) cols.
Proof.
  unfold row_complete, project_row, num_indices, obj_indices. cbn [nums objs].
  induction 1 as [|c loc cols locs Hloc _ IH]; [done|].
  cbn [forallb omap list_omap]. unfold has_value at 1. rewrite Hloc, <- IH.
  destruct loc as [k|k]; cbn [fmap list_fmap forallb].
  - by rewrite <- andb_assoc.
  - destruct (bool_decide (is_Some (obj_cell k r))); cbn [andb].
    + done.
    + by rewrite andb_false_r.
Qed.

Lemma branches_draw (plot_df : DataFrame) (y_column x_column color_column : string)
    (show_points show_mean : bool) :
  single_box plot_df y_column show_points show_mean ≠ Ok no_valid_data ∧
  colored_boxes plot_df x_column y_column color_column show_points show_mean
    ≠ Ok no_valid_data ∧
  grouped_boxes plot_df x_column y_column show_points show_mean ≠ Ok no_valid_data.
Proof.
  split; [|split]; intros H.
  - unfold single_box in H. apply bind_Ok in H as (? & _ & H).
    by apply bind_Ok in H as (? & _ & H).
  - unfold colored_boxes in H. apply bind_Ok in H as (? & _ & H).
    apply bind_Ok in H as (? & _ & H). apply bind_Ok in H as (? & _ & H).
    apply bind_Ok in H as (? & _ & H). by apply bind_Ok in H as (? & _ & H).
  - unfold grouped_boxes in H. apply bind_Ok in H as (? & _ & H).
    apply bind_Ok in H as (? & _ & H). apply bind_Ok in H as (? & _ & H).
    apply bind_Ok in H as (? & _ & H). by apply bind_Ok in H as (? & _ & H).
Qed.

(** X24: [create_boxplot] reports that there is no valid data exactly
    when the selected columns are columns of the frame and every row
    misses a value in one of them; no branch that draws reports it, and
    a selected column that the frame does not have is an error
    instead. *)
Theorem no_valid_data_iff (df : DataFrame) (y_column x_column color_column : string)
    (show_points show_mean : bool) :
  create_boxplot df y_column x_column color_column show_points show_mean
    = Ok no_valid_data ↔
  selected_columns y_column x_column color_column
    ⊆ num_columns df ++ obj_columns df ∧
  Forall (λ r, forallb (has_value df r)
                 (selected_columns y_column x_column color_column) = false)
    (rows df).
Proof.
  unfold create_boxplot. rewrite plot_frame_selected.
  set (cols := selected_columns y_column x_column color_column).
  destruct (getitem_list df cols) as [P|e] eqn:HP; cbn [fmap result_fmap mbind result_bind].
  - apply getitem_list_Ok in HP as (locs & Hall & ->).
    assert (cols ⊆ num_columns df ++ obj_columns df) as Hcols.
    { intros c Hc. apply list_elem_of_lookup in Hc as [i Hi].
      destruct (Forall2_lookup_l _ _ _ _ _ Hall Hi) as (loc & _ & Hloc).
      destruct (decide (c ∈ num_columns df ++ obj_columns df)) as [|Hn]; [done|].
      apply locate_missing in Hn. congruence. }
    unfold empty, dropna at 1. cbn [rows].
    destruct (filter (λ r, row_complete r = true) (project_row locs <$> rows df))
      as [|r0 rs] eqn:Hf.
    + split; [intros _|done]. split; [done|].
      apply Forall_forall. intros r Hr.
      rewrite <- (row_complete_project df cols locs r Hall).
      destruct (row_complete (project_row locs r)) eqn:Hc; [|done].
      assert (project_row locs r ∈ filter (λ r, row_complete r = true)
                                     (project_row locs <$> rows df)) as Hin.
      { apply list_elem_of_filter. split; [done|]. apply list_elem_of_fmap. eauto. }
      rewrite Hf in Hin. by apply elem_of_nil in Hin.
    + split.
      * intros H. exfalso.
        destruct (branches_draw
                    (dropna {| num_columns := filter (λ c, is_numeric df c = true) cols;
                               obj_columns := filter (λ c, is_numeric df c = false) cols;
                               rows := project_row locs <$> rows df |})
                    y_column x_column color_column show_points show_mean)
          as (H1 & H2 & H3).
        repeat case_bool_decide; done.
      * intros [_ Hall']. exfalso.
        assert (r0 ∈ filter (λ r, row_complete r = true)
                       (project_row locs <$> rows df)) as Hin by (rewrite Hf; left).
        apply list_elem_of_filter in Hin as [Hc Hin].
        apply list_elem_of_fmap in Hin as (r & -> & Hr).
        rewrite Forall_forall in Hall'. specialize (Hall' r Hr).
        rewrite <- (row_complete_project df cols locs r Hall) in Hall'. congruence.
  - split; [done|]. intros [Hcols _]. exfalso.
    assert (∃ locs, Forall2 (λ c loc, locate df c = Ok loc) cols locs) as [locs Hall].
    { clear HP. induction cols as [|c cols IH]; [by exists []|].
      destruct IH as [locs Hlocs]; [intros c' Hc'; apply Hcols; by right|].
      destruct (locate_elem_of df c) as [loc Hloc]; [apply Hcols; left|].
      exists (loc :: locs). by constructor. }
    apply mapM_Ok_Forall2 in Hall. unfold getitem_list in HP. by rewrite Hall in HP.
Qed.

(** ** The fences bracket the quartiles *)











(** ** The two copies of the filter loop *)


(** ** The title of the value axis *)

(** X28: for a categorical filter whose selection is a duplicate-free
    part of its domain (what the handlers keep true), the title of the
    value axis says that everything is selected exactly when the
    selection is the whole domain, in whatever order. *)
Theorem title_says_all_when_all_selected (column : string)
    (all_values selected_values : list string) :
  filter_ok (categorical column all_values selected_values) →
  filter_text (categorical column all_values selected_values) = all_selected column
  ↔ selected_values ≡ₚ all_values.
Proof.
  intros (Ha & Hs & Hsub). cbn [filter_text]. split.
  - case_bool_decide as Hlen; [intros _|by case_bool_decide].
    apply submseteq_length_Permutation; [|lia]. by apply NoDup_submseteq.
  - intros Hp. by rewrite bool_decide_eq_true_2 by by rewrite Hp.
Qed.

Lemma title_says_all_when_all_selected_witness :
  filter_text (categorical "g" ["X"; "Y"] ["Y"; "X"]) = all_selected "g"
  ↔ ["Y"; "X"] ≡ₚ ["X"; "Y"].
Proof.
  apply (title_says_all_when_all_selected "g" ["X"; "Y"] ["Y"; "X"]).
  split; [|split].
  - apply NoDup_cons. split; [|apply NoDup_singleton].
    rewrite list_elem_of_singleton. discriminate.
  - apply NoDup_cons. split; [|apply NoDup_singleton].
    rewrite list_elem_of_singleton. discriminate.
  - intros v Hv. apply elem_of_cons in Hv as [->|Hv].
    + apply list_elem_of_further, list_elem_of_here.
    + apply list_elem_of_singleton in Hv as ->. apply list_elem_of_here.
Defined.

(** ** The boxes of the colors *)

Lemma filter_Box_points (points : list Trace) :
  Forall (λ t, trace_kind t = Scatter) points →
  filter (λ t, trace_kind t = Box) points = [].
Proof.
  intros H. apply filter_none. eapply Forall_impl; [exact H|].
  intros t Ht. cbn. congruence.
Qed.

Lemma Forall2_impl_in {A B} (P Q : A → B → Prop) (l : list A) (k : list B) :
  Forall2 P l k → (∀ x y, x ∈ l → P x y → Q x y) → Forall2 Q l k.
Proof.
  induction 1 as [|x y l k Hxy _ IH]; intros HPQ; constructor.
  - apply HPQ; [left|done].
  - apply IH. intros x' y' Hx'. apply HPQ. by right.
Qed.

(** X29: in the branch with a color column the boxes of the figure are
    the color groups in ascending order, one box for every color group
    (the test for a color without rows never succeeds); the mean is
    shown by the boxes themselves, each carrying the mean option. *)
Theorem colored_boxes_by_color (plot_df : DataFrame)
    (x_column y_column color_column : string) (show_points show_mean : bool)
    (fig : list Trace) (title : string) (color_groups : list string) :
  sorted_unique plot_df color_column = Ok color_groups →
  colored_boxes plot_df x_column y_column color_column show_points show_mean
    = Ok (plotly_chart fig title) →
  trace_name <$> filter (λ t, trace_kind t = Box) fig = color_groups ∧
  Forall (λ t, trace_boxmean t = show_mean) (filter (λ t, trace_kind t = Box) fig).
Proof.
  intros Hcg H. unfold colored_boxes in H. apply bind_Ok in H as (_ & _ & H).
  rewrite Hcg in H. cbn [mbind result_bind] in H.
  apply bind_Ok in H as (color_map & _ & H).
  apply bind_Ok in H as (groups & _ & H).
  apply bind_Ok in H as (traces & Htraces & [= <- _]).
  unfold sorted_unique in Hcg. apply bind_Ok in Hcg as (values & Hv & [= <-]).
  apply text_values_located in Hv as (kc & Hlc & ->).
  apply mapM_Ok_Forall2 in Htraces.
  assert (Forall2 (λ cg ts, ∃ box, filter (λ t, trace_kind t = Box) ts = [box]
                            ∧ trace_name box = cg ∧ trace_boxmean box = show_mean)
            (sorted (unique (dropna_obj (obj_cell kc <$> rows plot_df)))) traces)
    as Hboxes.
  { eapply Forall2_impl_in; [exact Htraces|]. intros cg ts Hin Hts.
    rewrite elem_of_sorted, elem_of_unique, elem_of_dropna_obj in Hin.
    apply list_elem_of_fmap in Hin as (r & Hr & Hin).
    unfold color_traces in Hts. rewrite (where_eq_located _ _ kc) in Hts by done.
    cbn [mbind result_bind rows with_rows] in Hts.
    rewrite bool_decide_eq_false_2 in Hts.
    2:{ intros Hlen%length_zero_iff_nil.
        assert (r ∈ filter (λ r, obj_cell kc r = Some cg) (rows plot_df)) as Hin'
          by (apply list_elem_of_filter; by split).
        rewrite Hlen in Hin'. by apply elem_of_nil in Hin'. }
    apply bind_Ok in Hts as (xs & _ & Hts).
    apply bind_Ok in Hts as (ys & _ & Hts).
    apply bind_Ok in Hts as (color & _ & Hts).
    apply bind_Ok in Hts as (points & Hpoints & [= <-]).
    assert (filter (λ t, trace_kind t = Box) points = []) as Hnone.
    { apply filter_Box_points. destruct show_points.
      - eapply concat_mapM_Forall; [|exact Hpoints].
        intros g ts'. apply cell_points_scatter.
      - injection Hpoints as <-. constructor. }
    eexists. rewrite filter_cons, decide_True, Hnone by done. done. }
  clear Htraces.
  induction Hboxes as [|cg ts cgs traces (box & Hf & Hn & Hm) _ [IH1 IH2]]; [done|].
  cbn [concat]. rewrite filter_app, Hf. cbn [app fmap list_fmap]. split.
  - by rewrite Hn, IH1.
  - by constructor.
Qed.
Lemma colored_boxes_by_color_witness :
  trace_name <$> filter (λ t, trace_kind t = Box) two_colors_fig = ["A"; "B"] ∧
  Forall (λ t, trace_boxmean t = false) (filter (λ t, trace_kind t = Box) two_colors_fig).
Proof.
  apply (colored_boxes_by_color two_colors_plot_df "g" "v" "c" true false
           two_colors_fig "v by g (색상: c)" ["A"; "B"]).
  - vm_compute. reflexivity.
  - vm_compute. reflexivity.
Defined.

(** ** From the check boxes to the rows *)

(** X30: when no button of a categorical filter on a text column is
    pressed, the filter that the loop over the check boxes leaves keeps
    exactly the rows whose value in the column is a checked value of
    the domain. *)
Theorem checked_values_are_kept (df : DataFrame) (w : ControlWidgets) (i k : nat)
    (column : string) (all_values selected_values : list string) :
  locate df column = Ok (inr k) →
  select_all w i = false →
  deselect_all w i = false →
  NoDup selected_values →
  selected_values ⊆ all_values →
  filter_step df (filter_control w i (categorical column all_values selected_values)).1
  = Ok (with_rows df
          (filter (λ r, match obj_cell k r with
                        | Some v => bool_decide (v ∈ all_values) && filter_check w i v
                        | None => false
                        end = true) (rows df))).
Proof.
  intros Hloc Hs Hd Hnd Hsub. cbn [filter_control]. rewrite Hs, Hd. cbn [fst].
  set (selected := check_values (filter_check w i) all_values selected_values).
  assert (∀ v, v ∈ selected ↔ v ∈ all_values ∧ filter_check w i v = true) as Hsel.
  { intros v. unfold selected. rewrite elem_of_check_values by done.
    split; [|tauto]. intros [?|[Hv Hv']]; [done|]. by apply Hsub in Hv'. }
  assert (∀ r, obj_isin selected (obj_cell k r) = true ↔
               match obj_cell k r with
               | Some v => bool_decide (v ∈ all_values) && filter_check w i v
               | None => false
               end = true) as Hrow.
  { intros r. destruct (obj_cell k r) as [v|]; cbn [obj_isin]; [|done].
    rewrite bool_decide_eq_true, Hsel, andb_true_iff, bool_decide_eq_true. done. }
  destruct selected as [|v0 sel] eqn:Hsel0; cbn [filter_step].
  - f_equal. unfold iloc_empty, with_rows. f_equal. symmetry.
    apply filter_none, Forall_forall. intros r _. rewrite <- Hrow.
    by destruct (obj_cell k r).
  - rewrite getitem_locate, Hloc. cbn [mbind result_bind series_isin].
    f_equal. unfold getitem_mask, with_rows. f_equal.
    rewrite <- list_fmap_compose.
    rewrite (select_fmap (obj_isin (v0 :: sel) ∘ obj_cell k)).
    apply filter_ext_in. intros r _. apply Hrow.
Qed.

Lemma checked_values_are_kept_witness :
  filter_step scenario_A
    (filter_control controls_X 0 (categorical "g" ["X"; "Y"] ["Y"])).1
  = Ok (with_rows scenario_A
          (filter (λ r, match obj_cell 0 r with
                        | Some v => bool_decide (v ∈ ["X"; "Y"])
                                    && filter_check controls_X 0 v
                        | None => false
                        end = true) (rows scenario_A))).
Proof.
  apply (checked_values_are_kept scenario_A controls_X 0 0 "g" ["X"; "Y"] ["Y"]).
  - reflexivity.
  - reflexivity.
  - reflexivity.
  - apply NoDup_singleton.
  - intros v Hv. apply list_elem_of_singleton in Hv as ->.
    apply list_elem_of_further, list_elem_of_here.
Defined.
